(** * Anime recommender: data loader, recommender and pipeline driver

    A shallow embedding of [src/data_loader.py], [src/recommender.py],
    [utils/logger.py] and [pipeline/build_pipleline.py].

    Python exceptions are values of type [exn]; a computation that may raise
    is an [outcome]; a computation that also reads or writes the file system,
    the log file or an external service threads a [World]. *)

From Stdlib Require Import QArith Ascii String.
From stdpp Require Import base option list gmap strings pretty.

(** ** Exceptions *)

(** The text of an exception.  [MissingColumns missing] is the f-string
    [Missing columns {missing} in CSV file] of [load_and_process]: Python
    prints the members of the set in an order of its own, so the message is
    kept as the set it names. *)
Inductive message :=
  | Text (s : string)
  | MissingColumns (missing : gset string).

(** The exception classes the modelled code can meet. *)
Inductive exn : Type :=
  | ValueError (msg : message)
  | TypeError
  | KeyError (key : string)
  | FileNotFoundError (path : string)
  | UnicodeDecodeError
  | EmptyDataError
  | ParserError
  | OSError (path : string)
  | ServiceError (what : string)
  | KeyboardInterrupt
  | SystemExit
  | Wrapped (text : string) (cause : exn).

(** Modelled from the spec: [utils/custom_exception.py] is not among the
    sources.  The spec describes [CustomException] as the domain-specific
    error type that wraps the original exception and carries it as its cause;
    the driver builds it from a summary text and the exception it caught. *)
Definition CustomException (text : string) (cause : exn) : exn :=
  Wrapped text cause.

(** [isinstance(e, Exception)]: [KeyboardInterrupt] and [SystemExit] derive
    from [BaseException] only. *)
Definition is_Exception (e : exn) : bool :=
  match e with
  | KeyboardInterrupt | SystemExit => false
  | _ => true
  end.

Inductive outcome (A : Type) : Type :=
  | Return (a : A)
  | Raise (e : exn).
Arguments Return {A} a.
Arguments Raise {A} e.

Global Instance outcome_ret : MRet outcome := λ A a, Return a.

Global Instance outcome_bind : MBind outcome := λ A B k c,
  match c with
  | Return a => k a
  | Raise e => Raise e
  end.

(** ** CSV files and data frames (pandas) *)

(** A CSV file after tokenisation: the encoding its bytes are written in and
    its non-blank lines, each split into fields (quoting resolved).  The first
    record is the header. *)
Record csv_file := CsvFile {
  encoding : string;
  records : list (list string)
}.

(** Column types as far as string concatenation cares: in a [dt_str] column
    (object dtype) every non-null value is a Python [str]; [dt_other] stands
    for a column of numbers or booleans (int64, float64, bool), none of whose
    values is a [str]. *)
Inductive dtype := dt_str | dt_other.

Global Instance dtype_eq_dec : EqDecision dtype.
Proof. solve_decision. Defined.

(** Row labels: positions for the default [RangeIndex], the leading fields of
    the record when the file has more data fields than header names. *)
Inductive label := Pos (n : nat) | Key (fields : list string).

Record row := Row {
  row_label : label;
  cells : list (option string)
}.

Record DataFrame := Frame {
  columns : list string;
  dtypes : list dtype;
  rows : list row
}.

Record Series := Ser {
  s_dtype : dtype;
  values : list (option string)
}.

(** *** Operations on frames and series *)

Definition is_null (c : option string) : bool :=
  match c with None => true | Some _ => false end.

Definition has_null (r : list (option string)) : bool := existsb is_null r.

(** [df.dropna()]: rows with a missing value in any column go. *)
Definition dropna (df : DataFrame) : DataFrame :=
  {| columns := columns df;
     dtypes := dtypes df;
     rows := filter (λ r, has_null (cells r) = false) (rows df) |}.

Fixpoint index_of (name : string) (cols : list string) : option nat :=
  match cols with
  | [] => None
  | c :: cols' => if decide (c = name) then Some 0 else S <$> index_of name cols'
  end.

Definition cell_at (j : nat) (r : row) : option string := mjoin (cells r !! j).

Definition column_values (j : nat) (rs : list row) : list (option string) :=
  cell_at j <$> rs.

(** [df[name]] *)
Definition getitem (df : DataFrame) (name : string) : outcome Series :=
  match index_of name (columns df) with
  | None => Raise (KeyError name)
  | Some j => Return {| s_dtype := default dt_other (dtypes df !! j);
                        values := column_values j (rows df) |}
  end.

(** [lit + series] with a [str] on the left: element-wise on a column of
    strings, NaN stays NaN; for a column of numbers the addition has no
    meaning whatever its length, and raises.  The result is a series of
    strings, kept as its values. *)
Definition str_radd (lit : string) (s : Series) : outcome (list (option string)) :=
  match s_dtype s with
  | dt_str => Return (option_map (String.append lit) <$> values s)
  | dt_other => Raise TypeError
  end.

(** [series + lit] for a series of strings. *)
Definition str_add (vs : list (option string)) (lit : string) : list (option string) :=
  option_map (λ x, x +:+ lit) <$> vs.

Definition cell_append (a b : option string) : option string :=
  match a, b with
  | Some x, Some y => Some (x +:+ y)
  | _, _ => None
  end.

Definition both_present (a b : option string) : bool :=
  match a, b with
  | Some _, Some _ => true
  | _, _ => false
  end.

(** [series + series] with a series of strings on the left, both taken from
    one frame (same index).  The values are added one by one where both are
    present: a [str] and a number cannot be added, so a column of numbers on
    the right raises as soon as one such pair exists, and only then. *)
Definition series_add (vs : list (option string)) (s : Series)
  : outcome (list (option string)) :=
  match s_dtype s with
  | dt_str => Return (zip_with cell_append vs (values s))
  | dt_other =>
      if existsb (λ p, both_present p.1 p.2) (zip vs (values s))
      then Raise TypeError
      else Return (zip_with cell_append vs (values s))
  end.

(** [df[name] = series]: an existing column is overwritten in place, a new
    one is appended. *)
Definition setitem (df : DataFrame) (name : string) (s : Series) : outcome DataFrame :=
  if decide (length (values s) = length (rows df)) then
    match index_of name (columns df) with
    | Some j =>
        Return {| columns := columns df;
                  dtypes := <[j := s_dtype s]> (dtypes df);
                  rows := zip_with (λ r v, Row (row_label r) (<[j := v]> (cells r)))
                            (rows df) (values s) |}
    | None =>
        Return {| columns := columns df ++ [name];
                  dtypes := dtypes df ++ [s_dtype s];
                  rows := zip_with (λ r v, Row (row_label r) (cells r ++ [v]))
                            (rows df) (values s) |}
    end
  else Raise (ValueError (Text "Length of values does not match length of index")).

Fixpoint indices_of (names cols : list string) : outcome (list nat) :=
  match names with
  | [] => Return []
  | n :: names' =>
      match index_of n cols with
      | None => Raise (KeyError n)
      | Some j => js ← indices_of names' cols; Return (j :: js)
      end
  end.

(** [df[[name; ...]]] *)
Definition select (df : DataFrame) (names : list string) : outcome DataFrame :=
  js ← indices_of names (columns df);
  Return {| columns := names;
            dtypes := (λ j, default dt_other (dtypes df !! j)) <$> js;
            rows := (λ r, Row (row_label r) ((λ j, cell_at j r) <$> js)) <$> rows df |}.

(** The right-hand side of the assignment to [df['combined_info']]:
    ["Title: " + df["Name"] + "..Overview: " + df['sypnopsis'] + "Genres : " + df["Genres"]],
    evaluated left to right. *)
Definition combined_info_series (df : DataFrame) : outcome Series :=
  name ← getitem df "Name";
  s1 ← str_radd "Title: " name;
  let s2 := str_add s1 "..Overview: " in
  sypnopsis ← getitem df "sypnopsis";
  s3 ← series_add s2 sypnopsis;
  let s4 := str_add s3 "Genres : " in
  genres ← getitem df "Genres";
  s5 ← series_add s4 genres;
  Return {| s_dtype := dt_str; values := s5 |}.

Definition cell_text (c : option string) : string := default EmptyString c.

Definition label_fields (l : label) : list string :=
  match l with
  | Pos n => [pretty n]
  | Key fields => fields
  end.

Definition index_header (rs : list row) : list string :=
  match rs with
  | r :: _ => replicate (length (label_fields (row_label r))) EmptyString
  | [] => [EmptyString]
  end.

(** The content [df.to_csv(path, index=index, encoding=enc)] writes: a header
    record, then one record per row; with [index] the row labels come first
    under an empty header name.  Missing values are written as empty
    fields. *)
Definition csv_of_frame (df : DataFrame) (index : bool) (enc : string) : csv_file :=
  {| encoding := enc;
     records :=
       ((if index then index_header (rows df) else []) ++ columns df)
       :: ((λ r, (if index then label_fields (row_label r) else [])
                   ++ (cell_text <$> cells r)) <$> rows df) |}.

(** What [read_csv] leaves to pandas' converters: which field texts are read
    as missing values ([na_values], default markers such as the empty string,
    [NA], [NaN], [null]) and which type is inferred for a column. *)
Class Parser := {
  na_value : string → bool;
  infer_dtype : list (option string) → dtype
}.

Inductive bad_lines := bad_error | bad_warn | bad_skip.

Definition raises_on_bad (policy : bad_lines) : bool :=
  match policy with bad_error => true | _ => false end.

Section pandas.
Context `{Parser}.

Definition parse_field (s : string) : option string :=
  if na_value s then None else Some s.

(** Missing trailing fields are filled with NaN. *)
Definition pad (width : nat) (r : list (option string)) : list (option string) :=
  r ++ replicate (width - length r) None.

(** The number of fields a record may have: the header's, or the first data
    record's when that one is longer (the extra leading fields then become
    the index). *)
Definition expected_fields (header : list string) (body : list (list string)) : nat :=
  match body with
  | [] => length header
  | r :: _ => length header `max` length r
  end.

Definition is_bad (width : nat) (r : list string) : bool :=
  bool_decide (width < length r).

Definition parse_record (width lead : nat) (r : list string) : list (option string) :=
  drop lead (pad width (parse_field <$> r)).

Definition make_row (width lead : nat) (i : nat) (r : list string) : row :=
  {| row_label := if decide (lead = 0) then Pos i else Key (take lead r);
     cells := parse_record width lead r |}.

(** What [pd.read_csv(path, encoding=enc, on_bad_lines=policy)] makes of
    the content of the file.  A record with more fields than expected is a
    bad line: an error, or skipped.  Later duplicates of a header name are
    renamed by pandas ([Name.1]); the first occurrence keeps its name, and
    columns are looked up by first occurrence. *)
Definition parse_csv (f : csv_file) (enc : string) (policy : bad_lines)
  : outcome DataFrame :=
  if decide (encoding f = enc) then
    match records f with
    | [] => Raise EmptyDataError
    | header :: body =>
        let width := expected_fields header body in
        let lead := width - length header in
        if raises_on_bad policy && existsb (is_bad width) body
        then Raise ParserError
        else
          let good := filter (λ r, is_bad width r = false) body in
          let rs := imap (make_row width lead) good in
          Return {| columns := header;
                    dtypes := (λ j, infer_dtype (column_values j rs))
                                <$> seq 0 (length header);
                    rows := rs |}
    end
  else Raise UnicodeDecodeError.
End pandas.

(** ** External services *)

(** The chat model client [ChatGroq(model=..., api_key=..., temperature=...)]. *)
Record ChatGroq := {
  model : string;
  api_key : string;
  temperature : Q
}.

(** What the client does with the temperature it is given: [ChatGroq]
    replaces a temperature of zero by 1e-8, and that is the value the client
    holds and sends with every request. *)
Definition ChatGroq_init (model_name key : string) (temp : Q) : ChatGroq :=
  {| model := model_name; api_key := key;
     temperature := if Qeq_bool temp 0 then (1 # 100000000)%Q else temp |}.

Record Document := { page_content : string }.

Record AIMessage := { content : string }.

(** ** The world *)

Inductive log_message :=
  | Plain (text : string)
  | FailedToExecute (e : exn).

Record log_record := { levelno : nat; log_msg : log_message }.

Inductive call :=
  | RetrieverInvoke (query : string)
  | LLMInvoke (llm : ChatGroq) (prompt : string).

(** The file system (CSV files by path, and the directories that exist), the
    log file of the run, the calls made to external services so far, and
    [tick], the state of the outside world an external service may answer
    from. *)
Record World := {
  fs : gmap string csv_file;
  dirs : gset string;
  logfile : list log_record;
  calls : list call;
  tick : nat
}.

Definition M (A : Type) : Type := World → outcome A * World.

Global Instance M_ret : MRet M := λ A a w, (Return a, w).

Global Instance M_bind : MBind M := λ A B k c w,
  match c w with
  | (Return a, w') => k a w'
  | (Raise e, w') => (Raise e, w')
  end.

Definition raise {A} (e : exn) : M A := λ w, (Raise e, w).

Definition lift {A} (c : outcome A) : M A := λ w, (c, w).

(** [try: body except Exception as e: handler e] *)
Definition try_except {A} (body : M A) (handler : exn → M A) : M A := λ w,
  match body w with
  | (Return a, w') => (Return a, w')
  | (Raise e, w') => if is_Exception e then handler e w' else (Raise e, w')
  end.

Definition read_file (path : string) : M csv_file := λ w,
  match fs w !! path with
  | Some f => (Return f, w)
  | None => (Raise (FileNotFoundError path), w)
  end.

(** The part of [path] before its last separator, if it has one. *)
Fixpoint parent_of (path : string) : option string :=
  match path with
  | EmptyString => None
  | String c rest =>
      match parent_of rest with
      | Some d => Some (String c d)
      | None => if Ascii.eqb c "/" then Some EmptyString else None
      end
  end.

(** [Path(path).parent] *)
Definition dirname (path : string) : string :=
  match parent_of path with
  | None => "."
  | Some EmptyString => "/"
  | Some d => d
  end.

(** The working directory and the root always exist. *)
Definition is_dir (w : World) (d : string) : bool :=
  bool_decide (d = ".") || bool_decide (d = "/") || bool_decide (d ∈ dirs w).

(** Writing a file: pandas refuses to save into a directory that does not
    exist. *)
Definition write_file (path : string) (f : csv_file) : M unit := λ w,
  if is_dir w (dirname path) then
    (Return (),
     {| fs := <[path := f]> (fs w); dirs := dirs w; logfile := logfile w;
        calls := calls w; tick := tick w |})
  else (Raise (OSError path), w).

(** ** utils/logger.py *)

Definition INFO : nat := 20.

Record Logger := { logger_name : string; logger_level : nat }.

Definition get_logger (name : string) : Logger :=
  {| logger_name := name; logger_level := INFO |}.

(** [logger.info(msg)]: appended to the log file when the logger lets the
    INFO level through. *)
Definition info (logger : Logger) (msg : log_message) : M unit := λ w,
  if decide (logger_level logger ≤ INFO) then
    (Return (),
     {| fs := fs w; dirs := dirs w;
        logfile := logfile w ++ [{| levelno := INFO; log_msg := msg |}];
        calls := calls w; tick := tick w |})
  else (Return (), w).

(** ** src/data_loader.py *)

Record AnimeDataLoader := {
  original_csv : string;
  processed_csv : string
}.

Definition required_columns : gset string :=
  {[ "Name"; "Genres"; "sypnopsis" ]}.

Section data_loader.
Context `{Parser}.

Definition read_csv (path enc : string) (policy : bad_lines) : M DataFrame :=
  f ← read_file path; lift (parse_csv f enc policy).

Definition to_csv (df : DataFrame) (path : string) (index : bool) (enc : string)
  : M unit :=
  write_file path (csv_of_frame df index enc).

Definition load_and_process (self : AnimeDataLoader) : M string :=
  df0 ← read_csv (original_csv self) "utf-8" bad_skip;
  let df := dropna df0 in
  let missing := required_columns ∖ list_to_set (columns df) in
  if decide (missing ≠ ∅) then raise (ValueError (MissingColumns missing))
  else
    combined ← lift (combined_info_series df);
    df' ← lift (setitem df "combined_info" combined);
    out ← lift (select df' ["combined_info"]);
    to_csv out (processed_csv self) false "utf-8";;
    mret (processed_csv self).
End data_loader.

(** ** src/recommender.py *)

(** The prompt template: [format (context, question)] fills its two
    placeholders. *)
Record PromptTemplate := { format : string → string → string }.

(** A retriever answers a query from the vector store; what it answers may
    depend on the state of the outside world. *)
Record Retriever := { retrieve : string → nat → outcome (list Document) }.

(** What the recommender takes from outside this file: the template built by
    [get_anime_prompt] of [src/prompt_template.py], and the hosted inference
    service behind [ChatGroq.invoke]. *)
Class Services := {
  get_anime_prompt : PromptTemplate;
  groq : ChatGroq → string → nat → outcome AIMessage
}.

Record AnimeRecommender := {
  llm : ChatGroq;
  prompt : PromptTemplate;
  retriever : Retriever;
  chain : ChatGroq * PromptTemplate
}.

(** A call to an external service: it is recorded, answered from the current
    state of the outside world, and that state moves on. *)
Definition external {A} (c : call) (answer : nat → outcome A) : M A := λ w,
  (answer (tick w),
   {| fs := fs w; dirs := dirs w; logfile := logfile w;
      calls := calls w ++ [c]; tick := S (tick w) |}).

Definition newline : string := String "010" EmptyString.

(** [sep.join(parts)] *)
Fixpoint join (sep : string) (parts : list string) : string :=
  match parts with
  | [] => EmptyString
  | p :: rest =>
      match rest with
      | [] => p
      | _ :: _ => p +:+ sep +:+ join sep rest
      end
  end.

Section recommender.
Context `{Services}.

(** [AnimeRecommender.__init__] *)
Definition AnimeRecommender_init (retriever : Retriever) (key model_name : string)
  : AnimeRecommender :=
  let llm := ChatGroq_init model_name key 0 in
  let prompt := get_anime_prompt in
  {| llm := llm; prompt := prompt; retriever := retriever;
     chain := (llm, prompt) |}.

Definition retriever_invoke (r : Retriever) (query : string) : M (list Document) :=
  external (RetrieverInvoke query) (retrieve r query).

Definition llm_invoke (l : ChatGroq) (prompt_input : string) : M AIMessage :=
  external (LLMInvoke l prompt_input) (groq l prompt_input).

Definition get_recommendations (self : AnimeRecommender) (query : string)
  : M string :=
  retrieved_docs ← retriever_invoke (retriever self) query;
  let context := join newline (page_content <$> retrieved_docs) in
  let prompt_input := format (prompt self) context query in
  result ← llm_invoke (llm self) prompt_input;
  mret (content result).
End recommender.

Definition is_llm_call (c : call) : bool :=
  match c with LLMInvoke _ _ => true | RetrieverInvoke _ => false end.

(** ** pipeline/build_pipleline.py *)

Definition path_join (dir name : string) : string := dir +:+ "/" +:+ name.

Definition logger : Logger := get_logger "__main__".

(** [VectorStoreBuilder] of [src/vector_store.py]: its constructor and
    [build_and_save_vectorstore]. *)
Class VectorStore := {
  VectorStoreBuilder : Type;
  VectorStoreBuilder_init : string → M VectorStoreBuilder;
  build_and_save_vectorstore : VectorStoreBuilder → M unit
}.

Section pipeline.
Context `{Parser} `{VectorStore}.

(** The body of the [try] block of [main]. *)
Definition pipeline_steps (project_root : string) : M unit :=
  info logger (Plain "Starting to build pipeline");;
  let csv_path := path_join (path_join project_root "data") "anime_with_synopsis.csv" in
  let processed_csv_path := path_join (path_join project_root "data") "anime_updated.csv" in
  let loader := {| original_csv := csv_path; processed_csv := processed_csv_path |} in
  processed ← load_and_process loader;
  info logger (Plain "Data loaded and processed successfully");;
  vector_builder ← VectorStoreBuilder_init processed;
  build_and_save_vectorstore vector_builder;;
  info logger (Plain "Vector store built successfully...");;
  info logger (Plain "Pipeline built successfully").

Definition pipeline_failed (e : exn) : M unit :=
  info logger (FailedToExecute e);;
  raise (CustomException "Error during pipeline initialization" e).

Definition main (project_root : string) : M unit :=
  try_except (pipeline_steps project_root) pipeline_failed.
End pipeline.

(** ** A concrete parser

    pandas' default missing-value markers, and a type inference that reads a
    column as numbers when it has rows and no text field: every field is
    missing or a decimal integer.  A column without rows is read as strings.
    Used to run the model on concrete files. *)

Definition default_na_values : list string :=
  [ EmptyString; "#N/A"; "#N/A N/A"; "#NA"; "-1.#IND"; "-1.#QNAN"; "-NaN"; "-nan";
    "1.#IND"; "1.#QNAN"; "<NA>"; "N/A"; "NA"; "NULL"; "NaN"; "None"; "n/a";
    "nan"; "null" ].

Definition is_digit (c : Ascii.ascii) : bool :=
  (48 <=? Ascii.nat_of_ascii c)%nat && (Ascii.nat_of_ascii c <=? 57)%nat.

Fixpoint all_digits (s : string) : bool :=
  match s with
  | EmptyString => true
  | String c s' => is_digit c && all_digits s'
  end.

Definition is_integer (s : string) : bool :=
  match s with
  | EmptyString => false
  | String c s' =>
      if Ascii.eqb c "-"%char then negb (String.eqb s' EmptyString) && all_digits s'
      else all_digits s
  end.

Definition sample_infer (col : list (option string)) : dtype :=
  match col with
  | [] => dt_str
  | _ :: _ =>
      if forallb (λ c, match c with None => true | Some s => is_integer s end) col
      then dt_other else dt_str
  end.

Definition sample_parser : Parser :=
  {| na_value := λ s, bool_decide (s ∈ default_na_values);
     infer_dtype := sample_infer |}.

(** The row of the end-to-end example, alone in its file. *)
Definition example_csv : csv_file :=
  {| encoding := "utf-8";
     records := [ ["Name"; "Genres"; "sypnopsis"];
                  ["Naruto"; "Action, Adventure"; "A ninja's journey."] ] |}.

Definition example_world : World :=
  {| fs := {[ "raw.csv" := example_csv ]}; dirs := ∅; logfile := []; calls := []; tick := 0 |}.

Definition naruto_header : list string :=
  ["MAL_ID"; "Name"; "Score"; "Genres"; "sypnopsis"].

Definition naruto_body : list (list string) :=
  [ ["20"; "Naruto"; "7.91"; "Action, Adventure"; "A ninja's journey."];
    ["21"; "One Piece"; "8.52"; EmptyString; "Pirates."];
    ["22"; "Bleach"; "7.8"; "Action"; "Soul reapers."; "extra"];
    ["23"; "Monster"; "8.7"; "Drama"; "A doctor's choice."] ].

Definition naruto_csv : csv_file :=
  {| encoding := "utf-8";
     records := naruto_header :: naruto_body |}.

(** A source without the [Genres] column. *)
Definition no_genres_csv : csv_file :=
  {| encoding := "utf-8";
     records := [ ["Name"; "sypnopsis"]; ["Naruto"; "A ninja's journey."] ] |}.

Definition no_genres_world : World :=
  {| fs := {[ "raw.csv" := no_genres_csv ]}; dirs := ∅; logfile := []; calls := []; tick := 0 |}.

(** A source whose [Name] column holds numbers only. *)
Definition numeric_names_csv : csv_file :=
  {| encoding := "utf-8";
     records := [ ["Name"; "Genres"; "sypnopsis"];
                  ["86"; "Action"; "A war fought by drones."];
                  ["91"; "Drama"; "Days of a manga artist."] ] |}.

(** A source with a delimiter at the end of every data line: one field more
    than the header names, so the first field becomes the index. *)
Definition trailing_delimiter_csv : csv_file :=
  {| encoding := "utf-8";
     records := [ ["Name"; "Genres"];
                  ["Naruto"; "Action"; EmptyString];
                  ["Monster"; "Drama"; EmptyString] ] |}.

(** A source whose second row has one field too many and no empty field. *)
Definition long_row_header : list string := ["Name"; "Genres"; "sypnopsis"].

Definition long_row_body : list (list string) :=
  [ ["Naruto"; "Action, Adventure"; "A ninja's journey."];
    ["Bleach"; "Action"; "Soul reapers."; "extra"] ].

Definition long_row_csv : csv_file :=
  {| encoding := "utf-8"; records := long_row_header :: long_row_body |}.

Definition long_row_world : World :=
  {| fs := {[ "raw.csv" := long_row_csv ]}; dirs := ∅; logfile := []; calls := []; tick := 0 |}.

Definition world0 : World :=
  {| fs := {[ "raw.csv" := naruto_csv ]}; dirs := ∅; logfile := []; calls := []; tick := 0 |}.

Definition loader0 := {| original_csv := "raw.csv"; processed_csv := "out.csv" |}.

(** ** Sample services

    Stand-ins for the prompt template, the inference service, a retriever and
    the vector-store builder, to run the recommender and the driver on. *)

Definition sample_prompt : PromptTemplate :=
  {| format := λ context question,
       "Context: " +:+ context +:+ " Question: " +:+ question |}.

(** Answers from the prompt alone at temperatures up to 1e-8, and from the
    state of the outside world above that. *)
Definition sample_services : Services :=
  {| get_anime_prompt := sample_prompt;
     groq := λ l prompt_input t,
       if Qle_bool (temperature l) (1 # 100000000)
       then Return {| content := "Recommended: " +:+ prompt_input |}
       else Return {| content := pretty t |} |}.


Definition sample_retriever : Retriever :=
  {| retrieve := λ query t,
       Return [ {| page_content := "doc A" |}; {| page_content := "doc B" |} ] |}.

Definition idle_world : World :=
  {| fs := ∅; dirs := ∅; logfile := []; calls := []; tick := 0 |}.

Definition later_world : World :=
  {| fs := ∅; dirs := ∅; logfile := [];
     calls := [RetrieverInvoke "earlier question"]; tick := 7 |}.

(** A builder that is interrupted from the keyboard while it builds. *)
Definition interrupted_store : VectorStore :=
  {| VectorStoreBuilder := string;
     VectorStoreBuilder_init := λ csv_path, mret csv_path;
     build_and_save_vectorstore := λ _, raise KeyboardInterrupt |}.

(** A builder whose embedding service fails. *)
Definition failing_store : VectorStore :=
  {| VectorStoreBuilder := string;
     VectorStoreBuilder_init := λ csv_path, mret csv_path;
     build_and_save_vectorstore := λ _, raise (ServiceError "embedding failed") |}.

Definition pipeline_world : World :=
  {| fs := {[ "proj/data/anime_with_synopsis.csv" := naruto_csv ]};
     dirs := {[ "proj"; "proj/data" ]};
     logfile := []; calls := []; tick := 0 |}.

(** The number of characters in all of [parts]. *)
Fixpoint total_length (parts : list string) : nat :=
  match parts with
  | [] => 0
  | p :: rest => String.length p + total_length rest
  end.

(** The world after one INFO record. *)
Definition logged (msg : log_message) (w : World) : World :=
  {| fs := fs w; dirs := dirs w;
     logfile := logfile w ++ [{| levelno := INFO; log_msg := msg |}];
     calls := calls w; tick := tick w |}.

(** The loader the driver builds for a project root. *)
Definition pipeline_loader (project_root : string) : AnimeDataLoader :=
  {| original_csv :=
       path_join (path_join project_root "data") "anime_with_synopsis.csv";
     processed_csv :=
       path_join (path_join project_root "data") "anime_updated.csv" |}.

(** ** Notions used in the statements *)

Definition column_dtype (df : DataFrame) (name : string) : dtype :=
  default dt_other (j ← index_of name (columns df); dtypes df !! j).

(** Every column has a type and every row has one cell per column. *)
Definition rectangular (df : DataFrame) : Prop :=
  length (dtypes df) = length (columns df) ∧
  Forall (λ r, length (cells r) = length (columns df)) (rows df).

(** The value line 22 computes for one row, from the cells of the three
    columns. *)
Definition combine (jn js jg : nat) (r : row) : option string :=
  cell_append
    (option_map (λ x, x +:+ "Genres : ")
       (cell_append
          (option_map (λ x, x +:+ "..Overview: ")
             (option_map (String.append "Title: ") (cell_at jn r)))
          (cell_at js r)))
    (cell_at jg r).

(** The world after [path] has been written. *)
Definition written (path : string) (f : csv_file) (w : World) : World :=
  {| fs := <[path := f]> (fs w); dirs := dirs w; logfile := logfile w;
     calls := calls w; tick := tick w |}.

Section records.
Context `{Parser}.

(** The input rows of a file are the records after its header.  For a file
    with header [header] and input rows [body]: the number of leading
    fields that form the index, whether a row is skipped as malformed
    (more fields than expected), and its cells under the columns. *)
Definition lead_fields (header : list string) (body : list (list string)) : nat :=
  expected_fields header body - length header.

Definition malformed (header : list string) (body : list (list string))
    (r : list string) : bool :=
  is_bad (expected_fields header body) r.

Definition row_cells (header : list string) (body : list (list string))
    (r : list string) : list (option string) :=
  parse_record (expected_fields header body) (lead_fields header body) r.

(** The row holds a null in some column. *)
Definition null_row (header : list string) (body : list (list string))
    (r : list string) : bool :=
  has_null (row_cells header body r).

(** The row is neither skipped by [read_csv] nor dropped by [dropna]. *)
Definition survives (header : list string) (body : list (list string))
    (r : list string) : Prop :=
  malformed header body r = false ∧ null_row header body r = false.

Global Instance survives_dec header body r : Decision (survives header body r).
Proof. unfold survives. apply _. Defined.

(** The text of the field of row [r] under column [c]. *)
Definition field (header : list string) (body : list (list string))
    (c : string) (r : list string) : string :=
  default EmptyString (j ← index_of c header; r !! (lead_fields header body + j)).

(** The frame [read_csv] builds from a header and the input rows. *)
Definition frame_of (header : list string) (body : list (list string)) : DataFrame :=
  let width := expected_fields header body in
  let rs := imap (make_row width (lead_fields header body))
              (filter (λ r, is_bad width r = false) body) in
  {| columns := header;
     dtypes := (λ j, infer_dtype (column_values j rs)) <$> seq 0 (length header);
     rows := rs |}.

(** The text derived from an input row. *)
Definition derived (header : list string) (body : list (list string))
    (r : list string) : string :=
  "Title: " +:+ field header body "Name" r +:+ "..Overview: "
    +:+ field header body "sypnopsis" r +:+ "Genres : "
    +:+ field header body "Genres" r.

(** One record per surviving input row, in input order, under the single
    header name [combined_info]. *)
Definition processed_file (header : list string) (body : list (list string))
  : csv_file :=
  {| encoding := "utf-8";
     records := ["combined_info"]
                :: ((λ r, [derived header body r])
                      <$> filter (survives header body) body) |}.

(** The three columns of line 22 all hold strings. *)
Definition text_columns (header : list string) (body : list (list string)) : Prop :=
  column_dtype (frame_of header body) "Name" = dt_str ∧
  column_dtype (frame_of header body) "sypnopsis" = dt_str ∧
  column_dtype (frame_of header body) "Genres" = dt_str.

Global Instance text_columns_dec header body : Decision (text_columns header body).
Proof. unfold text_columns. apply _. Defined.

(** Line 22 can be evaluated: the [Name] column holds strings, and so do the
    other two unless no row survives. *)
Definition concatenable (header : list string) (body : list (list string)) : Prop :=
  column_dtype (frame_of header body) "Name" = dt_str ∧
  (filter (survives header body) body = [] ∨
   (column_dtype (frame_of header body) "sypnopsis" = dt_str ∧
    column_dtype (frame_of header body) "Genres" = dt_str)).

Global Instance concatenable_dec header body : Decision (concatenable header body).
Proof. unfold concatenable. apply _. Defined.
End records.

(** ** Further samples *)

Definition numeric_names_world : World :=
  {| fs := {[ "raw.csv" := numeric_names_csv ]}; dirs := ∅; logfile := []; calls := [];
     tick := 0 |}.

(** A parser that reads a column without any row as strings, as pandas does
    for a file that has a header only, and otherwise infers as the sample
    parser does. *)
Definition header_only_parser : Parser :=
  {| na_value := λ s, bool_decide (s ∈ default_na_values);
     infer_dtype := λ col, match col with [] => dt_str | _ => sample_infer col end |}.

Definition header_only_csv : csv_file :=
  {| encoding := "utf-8"; records := [ ["Name"; "Genres"; "sypnopsis"] ] |}.

Definition header_only_world : World :=
  {| fs := {[ "raw.csv" := header_only_csv ]}; dirs := ∅; logfile := []; calls := [];
     tick := 0 |}.

(** A source whose rows all lack the genres: the column is read as numbers
    (all NaN) and no row survives. *)
Definition no_genres_values_csv : csv_file :=
  {| encoding := "utf-8";
     records := [ ["Name"; "Genres"; "sypnopsis"];
                  ["Naruto"; EmptyString; "A ninja's journey."];
                  ["Monster"; EmptyString; "A doctor's choice."] ] |}.

Definition no_genres_values_world : World :=
  {| fs := {[ "raw.csv" := no_genres_values_csv ]}; dirs := ∅; logfile := [];
     calls := []; tick := 0 |}.

(** A loader whose destination lies in a directory that does not exist. *)
Definition stray_loader : AnimeDataLoader :=
  {| original_csv := "raw.csv"; processed_csv := "nodir/out.csv" |}.

(** The source of [world0] in a world that already has a file at the
    destination, a log and a history of calls. *)
Definition busy_world : World :=
  {| fs := {[ "raw.csv" := naruto_csv; "out.csv" := no_genres_csv ]}; dirs := ∅;
     logfile := [ {| levelno := INFO; log_msg := Plain "earlier run" |} ];
     calls := [RetrieverInvoke "earlier question"]; tick := 3 |}.

(** A retriever whose vector store cannot be reached, and one that finds
    nothing. *)
Definition offline_retriever : Retriever :=
  {| retrieve := λ query t, Raise (ServiceError "vector store unavailable") |}.

Definition empty_retriever : Retriever :=
  {| retrieve := λ query t, Return [] |}.

(** An inference service that rejects every request. *)
Definition rejecting_services : Services :=
  {| get_anime_prompt := sample_prompt;
     groq := λ l prompt_input t, Raise (ServiceError "rate limit exceeded") |}.

(** A builder that builds. *)
Definition working_store : VectorStore :=
  {| VectorStoreBuilder := string;
     VectorStoreBuilder_init := λ csv_path, mret csv_path;
     build_and_save_vectorstore := λ _, mret () |}.

Section driver_steps.
Context `{VectorStore}.

(** What the [try] block of [main] does after the loader has returned
    [processed] and the second record has been logged. *)
Definition build_steps (processed : string) : M unit :=
  vector_builder ← VectorStoreBuilder_init processed;
  build_and_save_vectorstore vector_builder;;
  info logger (Plain "Vector store built successfully...");;
  info logger (Plain "Pipeline built successfully").
End driver_steps.

(** * Properties *)

(** ** Column lookup *)

Lemma index_of_lookup name cols j :
  index_of name cols = Some j → cols !! j = Some name.
Proof.
  revert j. induction cols as [|c cols IH]; intros j; simpl; [done|].
  case_decide as Hc.
  - intros [= <-]. by rewrite Hc.
  - destruct (index_of name cols) as [k|] eqn:Hk; simpl; [|done].
    intros [= <-]. by apply IH.
Qed.

Lemma index_of_lt name cols j :
  index_of name cols = Some j → j < length cols.
Proof. intros Hj. apply index_of_lookup in Hj. by eapply lookup_lt_Some. Qed.

Lemma index_of_None name cols :
  index_of name cols = None ↔ name ∉ cols.
Proof.
  induction cols as [|c cols IH]; simpl.
  - split; [intros _; apply not_elem_of_nil | done].
  - case_decide as Hc.
    + split; [done|]. intros Hn. destruct Hn. subst. apply list_elem_of_here.
    + rewrite not_elem_of_cons. destruct (index_of name cols); simpl.
      * split; [done|]. intros [_ Hn]. by apply IH in Hn.
      * split; [|done]. intros _. split; [congruence | by apply IH].
Qed.

Lemma index_of_elem name cols :
  name ∈ cols → ∃ j, index_of name cols = Some j.
Proof.
  intros Hin. destruct (index_of name cols) as [j|] eqn:Hj; [by exists j|].
  by apply index_of_None in Hj.
Qed.

Lemma index_of_app_new name cols :
  name ∉ cols → index_of name (cols ++ [name]) = Some (length cols).
Proof.
  induction cols as [|c cols IH]; simpl; intros Hn.
  - by rewrite decide_True.
  - apply not_elem_of_cons in Hn as [Hne Hn].
    rewrite decide_False by congruence. by rewrite IH.
Qed.

(** ** Lists *)

Lemma fmap_filter_imap {A B C} (f : nat → A → B) (g : B → C) (h : A → C)
    (P : B → Prop) `{!∀ x, Decision (P x)} (Q : A → Prop) `{!∀ x, Decision (Q x)} l :
  (∀ i x, P (f i x) ↔ Q x) →
  (∀ i x, g (f i x) = h x) →
  g <$> filter P (imap f l) = h <$> filter Q l.
Proof.
  revert f. induction l as [|x l IH]; intros f HP Hg; [done|].
  simpl. rewrite !filter_cons.
  destruct (decide (P (f 0 x))) as [Hp|Hp], (decide (Q x)) as [Hq|Hq].
  - simpl. rewrite Hg. f_equal. apply IH; intros; [apply HP | apply Hg].
  - by apply HP in Hp.
  - by apply (HP 0) in Hq.
  - apply IH; intros; [apply HP | apply Hg].
Qed.

Lemma length_filter_all {A} (P : A → Prop) `{!∀ x, Decision (P x)} (l : list A) :
  length (filter P l) = length l ↔ Forall P l.
Proof.
  split.
  - intros Hlen. apply Forall_forall. intros x Hx.
    destruct (decide (P x)) as [|Hn]; [done|].
    pose proof (length_filter_lt P l x Hx Hn). lia.
  - induction 1 as [|x l Hx _ IH]; [done|].
    rewrite filter_cons_True by done. simpl. by rewrite IH.
Qed.

(** ** Frames *)

Lemma has_null_false (cs : list (option string)) :
  has_null cs = false ↔ Forall (λ c, is_Some c) cs.
Proof.
  unfold has_null. induction cs as [|c cs IH]; simpl.
  - split; [constructor | done].
  - rewrite Forall_cons, <- IH. destruct c; simpl.
    + split; [intros; split; eauto | tauto].
    + split; [done | intros [[? [=]] _]].
Qed.

(** In a row without nulls every column has a value. *)
Lemma cell_at_present r j n :
  has_null (cells r) = false →
  length (cells r) = n →
  j < n →
  ∃ x, cell_at j r = Some x.
Proof.
  intros Hnull Hlen Hj. apply has_null_false in Hnull.
  destruct (lookup_lt_is_Some_2 (cells r) j) as [c Hc]; [lia|].
  pose proof Hc as Hc'. eapply Forall_lookup in Hc'; [|exact Hnull].
  destruct Hc' as [x ->]. exists x. unfold cell_at. by rewrite Hc.
Qed.

Lemma combined_info_series_run df jn js jg :
  index_of "Name" (columns df) = Some jn →
  index_of "sypnopsis" (columns df) = Some js →
  index_of "Genres" (columns df) = Some jg →
  Forall (λ r, has_null (cells r) = false
               ∧ length (cells r) = length (columns df)) (rows df) →
  combined_info_series df =
    if decide (default dt_other (dtypes df !! jn) = dt_str ∧
               (rows df = [] ∨
                (default dt_other (dtypes df !! js) = dt_str ∧
                 default dt_other (dtypes df !! jg) = dt_str)))
    then Return {| s_dtype := dt_str; values := combine jn js jg <$> rows df |}
    else Raise TypeError.
Proof.
  intros Hn Hs Hg Hrows.
  pose proof (index_of_lt _ _ _ Hn) as Ln.
  pose proof (index_of_lt _ _ _ Hs) as Ls.
  pose proof (index_of_lt _ _ _ Hg) as Lg.
  unfold combined_info_series, getitem. rewrite Hn, Hs, Hg. simpl.
  destruct (default dt_other (dtypes df !! jn)) eqn:Dn; simpl.
  2:{ done. }
  unfold series_add, str_add, column_values. simpl.
  destruct (rows df) as [|r rs] eqn:Hr.
  { simpl.
    by destruct (default dt_other (dtypes df !! js)),
                (default dt_other (dtypes df !! jg)). }
  apply Forall_cons in Hrows as [[Hnull Hlen] _].
  destruct (cell_at_present r jn _ Hnull Hlen Ln) as [xn Xn].
  destruct (cell_at_present r js _ Hnull Hlen Ls) as [xs Xs].
  destruct (cell_at_present r jg _ Hnull Hlen Lg) as [xg Xg].
  assert (∀ l : list row,
    zip_with cell_append
      (option_map (λ x, x +:+ "Genres : ") <$>
       zip_with cell_append
         (option_map (λ x, x +:+ "..Overview: ") <$>
          (option_map (String.append "Title: ") <$> (cell_at jn <$> l)))
         (cell_at js <$> l))
      (cell_at jg <$> l)
    = combine jn js jg <$> l) as Hcomb.
  { intros l. induction l as [|r' l IH]; csimpl; [done|]. by rewrite IH. }
  destruct (default dt_other (dtypes df !! js)) eqn:Ds; simpl.
  - destruct (default dt_other (dtypes df !! jg)) eqn:Dg; simpl.
    + exact (f_equal (λ v, Return {| s_dtype := dt_str; values := v |})
               (Hcomb (r :: rs))).
    + by rewrite Xn, Xs, Xg.
  - by rewrite Xn, Xs.
Qed.

Lemma written_rows (rs : list row) (g : row → option string) :
  (λ r, cell_text <$> cells r)
    <$> zip_with (λ r v, Row (row_label r) [v]) rs (g <$> rs)
  = (λ r, [cell_text (g r)]) <$> rs.
Proof. induction rs; csimpl; congruence. Qed.

Lemma length_combine jn js jg (rs : list row) :
  length (combine jn js jg <$> rs) = length rs.
Proof. apply length_fmap. Qed.


Lemma fmap_zip_with_Forall {A B C D} (g : C → D) (f : A → B → C)
    (f' : A → B → D) (P : A → Prop) (l : list A) (k : list B) :
  Forall P l →
  (∀ x y, P x → g (f x y) = f' x y) →
  g <$> zip_with f l k = zip_with f' l k.
Proof.
  intros Hl Hg. revert k. induction Hl as [|x l Hx _ IH]; intros [|y k]; csimpl;
    try done.
  by rewrite Hg, IH.
Qed.

Lemma cell_at_insert j v r :
  j < length (cells r) →
  cell_at j (Row (row_label r) (<[j := v]> (cells r))) = v.
Proof.
  intros Hj. unfold cell_at. simpl. by rewrite list_lookup_insert_eq.
Qed.

Lemma cell_at_snoc v r :
  cell_at (length (cells r)) (Row (row_label r) (cells r ++ [v])) = v.
Proof.
  unfold cell_at. simpl.
  by rewrite lookup_app_r, Nat.sub_diag by lia.
Qed.

(** Lines 21 and 25: storing the series under [combined_info] and selecting
    that column alone leaves one cell per row, the value of the series. *)
Lemma setitem_select df s :
  rectangular df →
  length (values s) = length (rows df) →
  (df' ← setitem df "combined_info" s; select df' ["combined_info"])
  = Return {| columns := ["combined_info"];
              dtypes := [s_dtype s];
              rows := zip_with (λ r v, Row (row_label r) [v]) (rows df) (values s) |}.
Proof.
  intros [Hdt Hrows] Hlen. unfold setitem. rewrite decide_True by done.
  destruct (index_of "combined_info" (columns df)) as [j|] eqn:Hj.
  - pose proof (index_of_lt _ _ _ Hj) as Hlt.
    simpl. unfold select. simpl. rewrite Hj. simpl. f_equal. f_equal.
    + by rewrite list_lookup_insert_eq by lia.
    + apply fmap_zip_with_Forall with (P := λ r, length (cells r) = length (columns df));
        [done|].
      intros r v Hr. simpl. f_equal. f_equal. apply cell_at_insert. lia.
  - apply index_of_None in Hj.
    simpl. unfold select. simpl. rewrite (index_of_app_new _ _ Hj). simpl.
    f_equal. f_equal.
    + by rewrite lookup_app_r, Hdt, Nat.sub_diag by lia.
    + apply fmap_zip_with_Forall with (P := λ r, length (cells r) = length (columns df));
        [done|].
      intros r v Hr. simpl. f_equal. f_equal. rewrite <- Hr. apply cell_at_snoc.
Qed.

(** ** Reading *)

Section reading.
Context `{Parser}.

Lemma expected_fields_ge header body :
  length header ≤ expected_fields header body.
Proof. destruct body; simpl; lia. Qed.

Lemma length_parse_record width lead r :
  length r ≤ width →
  length (parse_record width lead r) = width - lead.
Proof.
  intros Hr. unfold parse_record, pad.
  rewrite length_drop, length_app, length_fmap, length_replicate. lia.
Qed.

Lemma parse_csv_skip f header body :
  encoding f = "utf-8" →
  records f = header :: body →
  parse_csv f "utf-8" bad_skip = Return (frame_of header body).
Proof.
  intros He Hr. unfold parse_csv. rewrite decide_True by done. by rewrite Hr.
Qed.

Lemma frame_of_rectangular header body : rectangular (frame_of header body).
Proof.
  pose proof (expected_fields_ge header body) as Hge. split; simpl.
  - by rewrite length_fmap, length_seq.
  - apply Forall_forall. intros r' Hr'.
    apply elem_of_lookup_imap in Hr' as (i & r & -> & Hi).
    apply list_elem_of_lookup_2, list_elem_of_filter in Hi as [Hgood _].
    unfold is_bad in Hgood. apply bool_decide_eq_false in Hgood.
    simpl. rewrite length_parse_record by lia. unfold lead_fields. lia.
Qed.

Lemma dropna_rectangular df : rectangular df → rectangular (dropna df).
Proof.
  intros [Hd Hr]. split; [done|]. simpl.
  apply Forall_forall. intros r [_ Hin]%list_elem_of_filter.
  by eapply Forall_forall in Hr.
Qed.
End reading.

(** ** Surviving rows *)

Lemma append_assoc (a b c : string) : (a +:+ b) +:+ c = a +:+ b +:+ c.
Proof.
  induction a as [|x a IH]; [done|].
  change (String x ((a +:+ b) +:+ c) = String x (a +:+ b +:+ c)). by f_equal.
Qed.

Section surviving.
Context `{Parser}.

Lemma parse_field_Some s t : parse_field s = Some t → t = s.
Proof. unfold parse_field. destruct (na_value s); congruence. Qed.

(** Under a column of the header, a surviving row holds the text of its
    own field. *)
Lemma survivor_cell header body r c j lbl :
  survives header body r →
  index_of c header = Some j →
  cell_at j (Row lbl (row_cells header body r)) = Some (field header body c r).
Proof.
  intros [Hgood Hnull] Hj.
  pose proof (index_of_lt _ _ _ Hj) as Hlt.
  pose proof (expected_fields_ge header body) as Hge.
  unfold malformed, is_bad in Hgood. apply bool_decide_eq_false in Hgood.
  unfold null_row in Hnull. apply has_null_false in Hnull.
  assert (length (row_cells header body r) = length header) as Hlen.
  { unfold row_cells. rewrite length_parse_record by lia.
    unfold lead_fields. lia. }
  destruct (lookup_lt_is_Some_2 (row_cells header body r) j) as [x Hx]; [lia|].
  pose proof Hx as Hx'.
  eapply Forall_lookup in Hx'; [|exact Hnull]. destruct Hx' as [s ->].
  unfold cell_at. simpl. rewrite Hx. simpl. f_equal.
  unfold field. rewrite Hj. simpl.
  unfold row_cells, parse_record, pad in Hx. rewrite lookup_drop in Hx.
  fold (lead_fields header body) in Hx.
  apply lookup_app_Some in Hx as [Hx|[_ Hx]].
  - rewrite list_lookup_fmap in Hx.
    destruct (r !! (lead_fields header body + j)) as [t|]; simpl in Hx; [|done].
    injection Hx as Hx. by apply parse_field_Some in Hx as ->.
  - apply lookup_replicate in Hx as [[=] _].
Qed.

Lemma survivor_combine header body r jn js jg lbl :
  survives header body r →
  index_of "Name" header = Some jn →
  index_of "sypnopsis" header = Some js →
  index_of "Genres" header = Some jg →
  combine jn js jg (Row lbl (row_cells header body r))
  = Some (derived header body r).
Proof.
  intros Hs Hn Hy Hg. unfold combine.
  rewrite (survivor_cell _ _ _ _ _ _ Hs Hn), (survivor_cell _ _ _ _ _ _ Hs Hy),
    (survivor_cell _ _ _ _ _ _ Hs Hg).
  unfold option_map, cell_append, derived. f_equal.
  by rewrite !append_assoc.
Qed.
End surviving.

(** ** The loader, case by case *)

Section loader_cases.
Context `{Parser}.

Lemma required_present header :
  required_columns ∖ list_to_set header = ∅ ↔
  "Name" ∈ header ∧ "Genres" ∈ header ∧ "sypnopsis" ∈ header.
Proof.
  unfold required_columns. split.
  - intros Hm.
    assert (∀ c, c ∈ ({["Name"; "Genres"; "sypnopsis"]} : gset string) → c ∈ header)
      as Hin.
    { intros c Hc. apply (elem_of_list_to_set (C:=gset string)).
      destruct (decide (c ∈ (list_to_set header : gset string))); [done|].
      assert (c ∈ ({["Name"; "Genres"; "sypnopsis"]} : gset string)
                    ∖ list_to_set header) as Hd by (by apply elem_of_difference).
      rewrite Hm in Hd. by apply not_elem_of_empty in Hd. }
    repeat split; apply Hin; apply (bool_decide_unpack _); vm_compute; exact I.
  - intros (Hn & Hg & Hs). apply set_eq. intros c.
    rewrite elem_of_difference, elem_of_list_to_set.
    split; [|by intros ?%not_elem_of_empty].
    intros [Hc Hnc]. destruct Hnc.
    repeat (apply elem_of_union in Hc as [Hc|Hc]);
      apply elem_of_singleton in Hc; by subst.
Qed.
Lemma dropna_frame_rows header body jn js jg :
  index_of "Name" header = Some jn →
  index_of "sypnopsis" header = Some js →
  index_of "Genres" header = Some jg →
  (λ r, [cell_text (combine jn js jg r)]) <$> rows (dropna (frame_of header body))
  = (λ r, [derived header body r]) <$> filter (survives header body) body.
Proof.
  intros Hn Hs Hg. simpl.
  rewrite (fmap_filter_imap _ _
    (λ r, [cell_text (combine jn js jg (Row (Pos 0) (row_cells header body r)))])
    _ (λ r, null_row header body r = false)); [|done|done].
  rewrite list_filter_filter.
  rewrite (list_filter_iff _ (survives header body)) by (unfold survives, malformed; tauto).
  apply list_fmap_ext. intros i r Hr.
  apply list_elem_of_lookup_2, list_elem_of_filter in Hr as [Hr _].
  by rewrite (survivor_combine _ _ _ _ _ _ _ Hr Hn Hs Hg).
Qed.

Lemma dropna_rows_clean df :
  rectangular df →
  Forall (λ r, has_null (cells r) = false
               ∧ length (cells r) = length (columns (dropna df)))
    (rows (dropna df)).
Proof.
  intros [_ Hr]. apply Forall_forall. intros r [Hn Hin]%list_elem_of_filter.
  split; [done|]. by eapply Forall_forall in Hr.
Qed.

Lemma dropna_frame_empty header body jn js jg :
  index_of "Name" header = Some jn →
  index_of "sypnopsis" header = Some js →
  index_of "Genres" header = Some jg →
  rows (dropna (frame_of header body)) = [] ↔
  filter (survives header body) body = [].
Proof.
  intros Hn Hs Hg.
  pose proof (f_equal length (dropna_frame_rows header body jn js jg Hn Hs Hg)) as Hlen.
  rewrite !length_fmap in Hlen.
  split; intros Hnil; apply length_zero_iff_nil.
  - rewrite <- Hlen. by rewrite Hnil.
  - rewrite Hlen. by rewrite Hnil.
Qed.

Lemma concatenable_dropna header body jn js jg :
  index_of "Name" header = Some jn →
  index_of "sypnopsis" header = Some js →
  index_of "Genres" header = Some jg →
  (default dt_other (dtypes (dropna (frame_of header body)) !! jn) = dt_str ∧
   (rows (dropna (frame_of header body)) = [] ∨
    (default dt_other (dtypes (dropna (frame_of header body)) !! js) = dt_str ∧
     default dt_other (dtypes (dropna (frame_of header body)) !! jg) = dt_str)))
  ↔ concatenable header body.
Proof.
  intros Hn Hs Hg. unfold concatenable, column_dtype.
  change (columns (frame_of header body)) with header.
  rewrite Hn, Hs, Hg. simpl.
  by rewrite (dropna_frame_empty header body jn js jg Hn Hs Hg).
Qed.

Lemma load_and_process_run self w f header body :
  fs w !! original_csv self = Some f →
  encoding f = "utf-8" →
  records f = header :: body →
  load_and_process self w =
    if decide (required_columns ∖ list_to_set header = ∅) then
      if decide (concatenable header body) then
        if is_dir w (dirname (processed_csv self)) then
          (Return (processed_csv self),
           written (processed_csv self) (processed_file header body) w)
        else (Raise (OSError (processed_csv self)), w)
      else (Raise TypeError, w)
    else (Raise (ValueError (MissingColumns (required_columns ∖ list_to_set header))), w).
Proof.
  intros Hf He Hr. unfold load_and_process, read_csv, read_file.
  unfold mbind, M_bind. rewrite Hf. unfold lift.
  rewrite (parse_csv_skip _ _ _ He Hr).
  change (columns (dropna (frame_of header body))) with header.
  destruct (decide (required_columns ∖ list_to_set header = ∅)) as [Hm|Hm];
    [rewrite decide_False by (by intros []) | by rewrite decide_True].
  pose proof (proj1 (required_present header) Hm) as (Pn & Pg & Ps).
  destruct (index_of_elem _ _ Pn) as [jn Hn].
  destruct (index_of_elem _ _ Ps) as [js Hs].
  destruct (index_of_elem _ _ Pg) as [jg Hg].
  rewrite (combined_info_series_run (dropna (frame_of header body)) jn js jg
             Hn Hs Hg (dropna_rows_clean _ (frame_of_rectangular header body))).
  pose proof (concatenable_dropna header body jn js jg Hn Hs Hg) as Hiff.
  destruct (decide (concatenable header body)) as [Hc|Hc].
  - rewrite decide_True by (by apply Hiff).
    pose proof (setitem_select (dropna (frame_of header body))
      {| s_dtype := dt_str;
         values := combine jn js jg <$> rows (dropna (frame_of header body)) |}
      (dropna_rectangular _ (frame_of_rectangular header body))
      (length_combine _ _ _ _)) as Hsel.
    destruct (setitem _ _ _) as [df'|e]; [|done]. simpl in Hsel.
    rewrite Hsel. unfold to_csv, write_file, written.
    destruct (is_dir w (dirname (processed_csv self))); [|done].
    simpl. do 3 f_equal.
    unfold processed_file, csv_of_frame. simpl. do 2 f_equal.
    rewrite <- (dropna_frame_rows header body jn js jg) by done.
    apply (written_rows _ (combine jn js jg)).
  - rewrite decide_False by (by intros ?%Hiff). done.
Qed.

Lemma load_and_process_no_file self w :
  fs w !! original_csv self = None →
  load_and_process self w = (Raise (FileNotFoundError (original_csv self)), w).
Proof.
  intros Hf. unfold load_and_process, read_csv, read_file, mbind, M_bind.
  by rewrite Hf.
Qed.

Lemma load_and_process_undecodable self w f :
  fs w !! original_csv self = Some f →
  encoding f ≠ "utf-8" →
  load_and_process self w = (Raise UnicodeDecodeError, w).
Proof.
  intros Hf He. unfold load_and_process, read_csv, read_file, mbind, M_bind.
  rewrite Hf. unfold lift, parse_csv. by rewrite decide_False.
Qed.

Lemma load_and_process_empty self w f :
  fs w !! original_csv self = Some f →
  encoding f = "utf-8" →
  records f = [] →
  load_and_process self w = (Raise EmptyDataError, w).
Proof.
  intros Hf He Hr. unfold load_and_process, read_csv, read_file, mbind, M_bind.
  rewrite Hf. unfold lift, parse_csv. rewrite decide_True by done. by rewrite Hr.
Qed.

(** A run that returns has read a decodable file with a header naming the
    three columns, could evaluate line 22, found the directory of the
    destination, and has written the processed file. *)
Lemma load_and_process_Return self w p w' :
  load_and_process self w = (Return p, w') →
  ∃ f header body,
    fs w !! original_csv self = Some f ∧
    encoding f = "utf-8" ∧
    records f = header :: body ∧
    required_columns ∖ list_to_set header = ∅ ∧
    (concatenable header body ∧ is_dir w (dirname (processed_csv self)) = true) ∧
    p = processed_csv self ∧
    w' = written (processed_csv self) (processed_file header body) w.
Proof.
  intros Hrun.
  destruct (fs w !! original_csv self) as [f|] eqn:Hf;
    [|by rewrite load_and_process_no_file in Hrun].
  destruct (decide (encoding f = "utf-8")) as [He|He];
    [|by rewrite (load_and_process_undecodable _ _ f) in Hrun].
  destruct (records f) as [|header body] eqn:Hr;
    [by rewrite (load_and_process_empty _ _ f) in Hrun|].
  rewrite (load_and_process_run _ _ _ _ _ Hf He Hr) in Hrun.
  destruct (decide (required_columns ∖ list_to_set header = ∅)); [|done].
  destruct (decide (concatenable header body)); [|done].
  destruct (is_dir w (dirname (processed_csv self))) eqn:Hd; [|done].
  injection Hrun as <- <-. by exists f, header, body.
Qed.

End loader_cases.

(** * The data loader *)

(** ** The model on small files *)

Example naruto_run :
  (@load_and_process sample_parser loader0 world0).1 = Return "out.csv" ∧
  fs (@load_and_process sample_parser loader0 world0).2 !! "out.csv"
  = Some {| encoding := "utf-8";
            records :=
              [ ["combined_info"];
                ["Title: Naruto..Overview: A ninja's journey.Genres : Action, Adventure"];
                ["Title: Monster..Overview: A doctor's choice.Genres : Drama"] ] |}.
Proof. split; by vm_compute. Qed.

Example numeric_names_run :
  @load_and_process sample_parser loader0
    {| fs := {[ "raw.csv" := numeric_names_csv ]}; dirs := ∅; logfile := []; calls := [];
       tick := 0 |}
  = (Raise TypeError,
     {| fs := {[ "raw.csv" := numeric_names_csv ]}; dirs := ∅; logfile := []; calls := [];
        tick := 0 |}).
Proof. by vm_compute. Qed.

Example trailing_delimiter_frame :
  @parse_csv sample_parser trailing_delimiter_csv "utf-8" bad_skip
  = Return {| columns := ["Name"; "Genres"];
              dtypes := [dt_str; dt_other];
              rows := [ Row (Key ["Naruto"]) [Some "Action"; None];
                        Row (Key ["Monster"]) [Some "Drama"; None] ] |}.
Proof. by vm_compute. Qed.

Example header_only_run :
  (@load_and_process sample_parser loader0 header_only_world).1 = Return "out.csv" ∧
  fs (@load_and_process sample_parser loader0 header_only_world).2 !! "out.csv"
  = Some {| encoding := "utf-8"; records := [ ["combined_info"] ] |}.
Proof. split; by vm_compute. Qed.

Example no_survivor_run :
  (@load_and_process sample_parser loader0 no_genres_values_world).1
  = Return "out.csv" ∧
  fs (@load_and_process sample_parser loader0 no_genres_values_world).2 !! "out.csv"
  = Some {| encoding := "utf-8"; records := [ ["combined_info"] ] |}.
Proof. split; by vm_compute. Qed.

Example missing_directory_run :
  @load_and_process sample_parser stray_loader world0
  = (Raise (OSError "nodir/out.csv"), world0).
Proof. by vm_compute. Qed.

Example dirname_examples :
  dirname "proj/data/anime_updated.csv" = "proj/data" ∧
  dirname "out.csv" = "." ∧ dirname "/out.csv" = "/".
Proof. by vm_compute. Qed.

Example missing_file_run :
  @load_and_process sample_parser loader0 idle_world
  = (Raise (FileNotFoundError "raw.csv"), idle_world).
Proof. by vm_compute. Qed.

(** C1.  When the source CSV has the columns [Name], [Genres] and
    [sypnopsis], every record [load_and_process] writes is, for the input row
    it comes from, the one field ["Title: " + Name + "..Overview: " +
    sypnopsis + "Genres : " + Genres] of that row's fields; the row of the
    end-to-end example gives
    [Title: Naruto..Overview: A ninja's journey.Genres : Action, Adventure]. *)
Theorem combined_info_is_concatenation `{Parser} self w f header body p w' :
  fs w !! original_csv self = Some f →
  records f = header :: body →
  "Name" ∈ header → "Genres" ∈ header → "sypnopsis" ∈ header →
  load_and_process self w = (Return p, w') →
  (∃ out,
     fs w' !! p = Some out ∧
     Forall2
       (λ record r,
          record = [ "Title: " +:+ field header body "Name" r
                     +:+ "..Overview: " +:+ field header body "sypnopsis" r
                     +:+ "Genres : " +:+ field header body "Genres" r ])
       (tail (records out)) (filter (survives header body) body)) ∧
  (@load_and_process sample_parser
     {| original_csv := "raw.csv"; processed_csv := "out.csv" |} example_world).2
    .(fs) !! "out.csv"
  = Some {| encoding := "utf-8";
            records :=
              [ ["combined_info"];
                ["Title: Naruto..Overview: A ninja's journey.Genres : Action, Adventure"] ] |}.
Proof.
  intros Hf Hr _ _ _ Hrun. split; [|by vm_compute].
  apply load_and_process_Return in Hrun
    as (f' & header' & body' & Hf' & _ & Hr' & _ & _ & -> & ->).
  rewrite Hf in Hf'. injection Hf' as <-.
  rewrite Hr in Hr'. injection Hr' as <- <-.
  exists (processed_file header body). split.
  - simpl. apply lookup_insert_eq.
  - simpl. apply Forall2_fmap_l, Forall_Forall2_diag, Forall_forall.
    intros r _. reflexivity.
Qed.

Lemma combined_info_is_concatenation_witness :
  ∃ out,
    fs (@load_and_process sample_parser loader0 world0).2 !! "out.csv" = Some out ∧
    Forall2
      (λ record r,
         record = [ "Title: " +:+ field naruto_header naruto_body "Name" r
                    +:+ "..Overview: "
                    +:+ field naruto_header naruto_body "sypnopsis" r
                    +:+ "Genres : "
                    +:+ field naruto_header naruto_body "Genres" r ])
      (tail (records out))
      (filter (@survives sample_parser naruto_header naruto_body) naruto_body).
Proof.
  refine (proj1 (@combined_info_is_concatenation sample_parser loader0 world0
    naruto_csv naruto_header naruto_body "out.csv"
    (@load_and_process sample_parser loader0 world0).2 _ _ _ _ _ _)).
  - vm_compute. reflexivity.
  - reflexivity.
  - apply (bool_decide_unpack _). vm_compute. exact I.
  - apply (bool_decide_unpack _). vm_compute. exact I.
  - apply (bool_decide_unpack _). vm_compute. exact I.
  - vm_compute. reflexivity.
Defined.

(** C2.  When the header of the source lacks one of [Name], [Genres],
    [sypnopsis] (dropping null rows removes no column), [load_and_process]
    raises the [ValueError] whose message names the set of exactly the
    required columns that are absent; when all three are present it raises
    no [ValueError]. *)
Theorem missing_columns_error `{Parser} self w f header body :
  fs w !! original_csv self = Some f →
  encoding f = "utf-8" →
  records f = header :: body →
  let missing : gset string :=
    {[ "Name"; "Genres"; "sypnopsis" ]} ∖ list_to_set header in
  (∀ c, c ∈ missing ↔ c ∈ ["Name"; "Genres"; "sypnopsis"] ∧ c ∉ header) ∧
  (¬ ("Name" ∈ header ∧ "Genres" ∈ header ∧ "sypnopsis" ∈ header) →
   load_and_process self w = (Raise (ValueError (MissingColumns missing)), w)) ∧
  ("Name" ∈ header ∧ "Genres" ∈ header ∧ "sypnopsis" ∈ header →
   ∀ msg w', load_and_process self w ≠ (Raise (ValueError msg), w')).
Proof.
  intros Hf He Hr missing. split; [|split].
  - intros c. unfold missing.
    rewrite elem_of_difference, elem_of_list_to_set.
    rewrite !elem_of_union, !elem_of_singleton, !elem_of_cons, elem_of_nil.
    tauto.
  - intros Habs. rewrite (load_and_process_run _ _ _ _ _ Hf He Hr).
    fold required_columns in missing.
    destruct (decide (required_columns ∖ list_to_set header = ∅)) as [Hm|Hm]; [|done].
    by apply required_present in Hm.
  - intros Hall msg w'. rewrite (load_and_process_run _ _ _ _ _ Hf He Hr).
    apply required_present in Hall. rewrite decide_True by done.
    destruct (decide (concatenable header body)); [|done].
    by destruct (is_dir w (dirname (processed_csv self))).
Qed.

Lemma missing_columns_error_witness :
  @load_and_process sample_parser loader0 no_genres_world
  = (Raise (ValueError (MissingColumns
       ({[ "Name"; "Genres"; "sypnopsis" ]} ∖ list_to_set ["Name"; "sypnopsis"]))),
     no_genres_world).
Proof.
  refine (proj1 (proj2 (@missing_columns_error sample_parser loader0 no_genres_world
    no_genres_csv ["Name"; "sypnopsis"] [["Naruto"; "A ninja's journey."]] _ _ _)) _).
  - vm_compute. reflexivity.
  - reflexivity.
  - reflexivity.
  - intros (_ & Hg & _). apply (bool_decide_pack _) in Hg. vm_compute in Hg. exact Hg.
Defined.

(** C3, as the code has it.  Every input row with a null in some column is
    absent from the output, the output has at most as many rows as the input,
    and the two counts are equal exactly when no input row holds a null and
    none is skipped as malformed. *)
Theorem null_rows_dropped `{Parser} self w f header body p w' :
  fs w !! original_csv self = Some f →
  records f = header :: body →
  load_and_process self w = (Return p, w') →
  ∃ out,
    fs w' !! p = Some out ∧
    (∃ kept,
       tail (records out) = (λ r, [derived header body r]) <$> kept ∧
       kept `sublist_of` body ∧
       ∀ r, r ∈ body → null_row header body r = true → r ∉ kept) ∧
    length (tail (records out)) ≤ length body ∧
    (length (tail (records out)) = length body ↔
     Forall (λ r, null_row header body r = false
                  ∧ malformed header body r = false) body).
Proof.
  intros Hf Hr Hrun.
  apply load_and_process_Return in Hrun
    as (f' & header' & body' & Hf' & _ & Hr' & _ & _ & -> & ->).
  rewrite Hf in Hf'. injection Hf' as <-.
  rewrite Hr in Hr'. injection Hr' as <- <-.
  exists (processed_file header body). simpl. rewrite length_fmap.
  split; [apply lookup_insert_eq|]. split; [|split].
  - exists (filter (survives header body) body).
    split; [done|]. split; [apply sublist_filter|].
    intros r _ Hnull [[_ Hnn] _]%list_elem_of_filter. congruence.
  - apply length_filter.
  - rewrite length_filter_all. apply Forall_iff. intros r.
    unfold survives. tauto.
Qed.

Lemma null_rows_dropped_witness :
  ∃ out,
    fs (@load_and_process sample_parser loader0 world0).2 !! "out.csv" = Some out ∧
    (∃ kept,
       tail (records out) = (λ r, [derived naruto_header naruto_body r]) <$> kept ∧
       kept `sublist_of` naruto_body ∧
       ∀ r, r ∈ naruto_body →
            @null_row sample_parser naruto_header naruto_body r = true → r ∉ kept) ∧
    length (tail (records out)) ≤ length naruto_body ∧
    (length (tail (records out)) = length naruto_body ↔
     Forall (λ r, @null_row sample_parser naruto_header naruto_body r = false
                  ∧ malformed naruto_header naruto_body r = false) naruto_body).
Proof.
  refine (@null_rows_dropped sample_parser loader0 world0 naruto_csv
    naruto_header naruto_body "out.csv"
    (@load_and_process sample_parser loader0 world0).2 _ _ _).
  - vm_compute. reflexivity.
  - reflexivity.
  - vm_compute. reflexivity.
Defined.

(** C3, as stated, fails on a source with a malformed line: no input row
    holds a null, yet the output has one row and the input two. *)
Lemma equal_counts_despite_no_null_fails :
  ∃ w' out,
    @load_and_process sample_parser loader0 long_row_world = (Return "out.csv", w') ∧
    fs w' !! "out.csv" = Some out ∧
    ¬ (length (tail (records out)) = length long_row_body ↔
       Forall (λ r, @null_row sample_parser long_row_header long_row_body r = false)
         long_row_body).
Proof.
  exists (@load_and_process sample_parser loader0 long_row_world).2.
  exists {| encoding := "utf-8";
            records := [ ["combined_info"];
                         ["Title: Naruto..Overview: A ninja's journey.Genres : Action, Adventure"] ] |}.
  split; [by vm_compute|]. split; [by vm_compute|].
  intros [_ Hcount]. assert (1 = 2) as Habs; [|lia].
  apply Hcount. repeat constructor.
Qed.

(** C7.  Run again with its own processed file as the source, the loader
    raises the missing-column [ValueError] naming exactly [Name], [Genres]
    and [sypnopsis]: the processed file has the single column
    [combined_info]. *)
Theorem rerun_on_output_fails `{Parser} self w p w' dest :
  load_and_process self w = (Return p, w') →
  load_and_process {| original_csv := p; processed_csv := dest |} w'
  = (Raise (ValueError (MissingColumns {[ "Name"; "Genres"; "sypnopsis" ]})), w').
Proof.
  intros Hrun.
  apply load_and_process_Return in Hrun
    as (f & header & body & _ & _ & _ & _ & _ & -> & ->).
  rewrite (load_and_process_run _ _ (processed_file header body) ["combined_info"]
             ((λ r, [derived header body r]) <$> filter (survives header body) body));
    [|apply lookup_insert_eq|done|done].
  assert (required_columns ∖ list_to_set ["combined_info"] = required_columns) as ->
    by (by vm_compute).
  rewrite decide_False; [done|].
  intros Hempty.
  assert ("Name" ∈ required_columns) as Hin
    by (apply (bool_decide_unpack _); vm_compute; exact I).
  rewrite Hempty in Hin. by apply not_elem_of_empty in Hin.
Qed.

Lemma rerun_on_output_fails_witness :
  @load_and_process sample_parser
    {| original_csv := "out.csv"; processed_csv := "again.csv" |}
    (@load_and_process sample_parser loader0 world0).2
  = (Raise (ValueError (MissingColumns {[ "Name"; "Genres"; "sypnopsis" ]})),
     (@load_and_process sample_parser loader0 world0).2).
Proof.
  refine (@rerun_on_output_fails sample_parser loader0 world0 "out.csv"
    (@load_and_process sample_parser loader0 world0).2 "again.csv" _).
  vm_compute. reflexivity.
Defined.

(** C8.  A run that returns has written, at the destination path given at
    construction, a UTF-8 file whose header is [combined_info] alone and
    whose records have one field each (no index column, no other column);
    it returns that path and touches no other file. *)
Theorem output_is_single_column `{Parser} self w p w' :
  load_and_process self w = (Return p, w') →
  p = processed_csv self ∧
  (∃ out data,
     fs w' !! processed_csv self = Some out ∧
     encoding out = "utf-8" ∧
     records out = ["combined_info"] :: data ∧
     Forall (λ record, length record = 1) data) ∧
  (∀ q, q ≠ processed_csv self → fs w' !! q = fs w !! q).
Proof.
  intros Hrun.
  apply load_and_process_Return in Hrun
    as (f & header & body & _ & _ & _ & _ & _ & -> & ->).
  split; [done|]. split.
  - exists (processed_file header body),
      ((λ r, [derived header body r]) <$> filter (survives header body) body).
    split; [apply lookup_insert_eq|]. do 2 (split; [done|]).
    apply Forall_fmap, Forall_forall. by intros r _.
  - intros q Hq. simpl. by apply lookup_insert_ne.
Qed.

Lemma output_is_single_column_witness :
  "out.csv" = processed_csv loader0 ∧
  (∃ out data,
     fs (@load_and_process sample_parser loader0 world0).2 !! processed_csv loader0
       = Some out ∧
     encoding out = "utf-8" ∧
     records out = ["combined_info"] :: data ∧
     Forall (λ record, length record = 1) data) ∧
  (∀ q, q ≠ processed_csv loader0 →
        fs (@load_and_process sample_parser loader0 world0).2 !! q = fs world0 !! q).
Proof.
  refine (@output_is_single_column sample_parser loader0 world0 "out.csv"
    (@load_and_process sample_parser loader0 world0).2 _).
  vm_compute. reflexivity.
Defined.

(** C10.  The records written are the derived values of the surviving input
    rows (not skipped as malformed, no null), one for one and in the order of
    the input: the survivors are a subsequence of the input rows. *)
Theorem input_order_preserved `{Parser} self w f header body p w' :
  fs w !! original_csv self = Some f →
  records f = header :: body →
  load_and_process self w = (Return p, w') →
  ∃ out,
    fs w' !! p = Some out ∧
    tail (records out)
      = (λ r, [derived header body r]) <$> filter (survives header body) body ∧
    filter (survives header body) body `sublist_of` body ∧
    ∀ i record,
      tail (records out) !! i = Some record →
      ∃ r, filter (survives header body) body !! i = Some r ∧
           record = [derived header body r].
Proof.
  intros Hf Hr Hrun.
  apply load_and_process_Return in Hrun
    as (f' & header' & body' & Hf' & _ & Hr' & _ & _ & -> & ->).
  rewrite Hf in Hf'. injection Hf' as <-.
  rewrite Hr in Hr'. injection Hr' as <- <-.
  exists (processed_file header body). simpl.
  split; [apply lookup_insert_eq|]. split; [done|]. split; [apply sublist_filter|].
  intros i record Hi. rewrite list_lookup_fmap in Hi.
  destruct (filter (survives header body) body !! i) as [r|]; [|done].
  injection Hi as <-. by exists r.
Qed.

Lemma input_order_preserved_witness :
  ∃ out,
    fs (@load_and_process sample_parser loader0 world0).2 !! "out.csv" = Some out ∧
    tail (records out)
      = (λ r, [derived naruto_header naruto_body r])
          <$> filter (@survives sample_parser naruto_header naruto_body) naruto_body ∧
    filter (@survives sample_parser naruto_header naruto_body) naruto_body
      `sublist_of` naruto_body ∧
    ∀ i record,
      tail (records out) !! i = Some record →
      ∃ r, filter (@survives sample_parser naruto_header naruto_body) naruto_body !! i
             = Some r ∧
           record = [derived naruto_header naruto_body r].
Proof.
  refine (@input_order_preserved sample_parser loader0 world0 naruto_csv
    naruto_header naruto_body "out.csv"
    (@load_and_process sample_parser loader0 world0).2 _ _ _).
  - vm_compute. reflexivity.
  - reflexivity.
  - vm_compute. reflexivity.
Defined.

(** * The recommender *)

Lemma join_concat sep (parts : list string) : join sep parts = String.concat sep parts.
Proof. induction parts as [|p [|q rest] IH]; simpl in *; congruence. Qed.

Lemma join_cons sep p q (rest : list string) :
  join sep (p :: q :: rest) = p +:+ sep +:+ join sep (q :: rest).
Proof. reflexivity. Qed.

(** C4.  For a recommender built by [__init__] and any query: when the
    retriever returns documents and the model answers, [get_recommendations]
    has invoked the retriever on the query, has invoked the model once, on
    the template formatted with the joined document text as context and the
    query as question, and returns the [content] of the model's answer. *)
Theorem get_recommendations_returns_content `{Services}
    retriever key model_name query w docs result :
  let self := AnimeRecommender_init retriever key model_name in
  let prompt_input :=
    format get_anime_prompt (join newline (page_content <$> docs)) query in
  retrieve retriever query (tick w) = Return docs →
  groq (llm self) prompt_input (S (tick w)) = Return result →
  ∃ w',
    get_recommendations self query w = (Return (content result), w') ∧
    calls w' = calls w ++ [RetrieverInvoke query; LLMInvoke (llm self) prompt_input] ∧
    length (filter is_llm_call (calls w'))
      = S (length (filter is_llm_call (calls w))) ∧
    prompt self = get_anime_prompt.
Proof.
  intros self prompt_input Hdocs Hllm. eexists.
  unfold get_recommendations, retriever_invoke, llm_invoke, external, mbind, M_bind.
  simpl. rewrite Hdocs. simpl. fold prompt_input.
  change (ChatGroq_init model_name key 0) with (llm self).
  rewrite Hllm. simpl. split; [reflexivity|]. split; [|split; [|done]].
  - by rewrite <- app_assoc.
  - cbn [calls]. rewrite !filter_app, !length_app. simpl. lia.
Qed.

Lemma get_recommendations_returns_content_witness :
  ∃ w',
    @get_recommendations sample_services
      (@AnimeRecommender_init sample_services sample_retriever "key" "llama-3.1-8b-instant")
      "action anime" later_world
    = (Return ("Recommended: Context: doc A" +:+ newline
                 +:+ "doc B Question: action anime"), w') ∧
    calls w'
    = calls later_world
      ++ [ RetrieverInvoke "action anime";
           LLMInvoke {| model := "llama-3.1-8b-instant"; api_key := "key";
                        temperature := 1 # 100000000 |}
             ("Context: doc A" +:+ newline +:+ "doc B Question: action anime") ] ∧
    length (filter is_llm_call (calls w'))
      = S (length (filter is_llm_call (calls later_world))) ∧
    prompt (@AnimeRecommender_init sample_services sample_retriever "key"
              "llama-3.1-8b-instant") = sample_prompt.
Proof.
  refine (@get_recommendations_returns_content sample_services sample_retriever
    "key" "llama-3.1-8b-instant" "action anime" later_world
    [ {| page_content := "doc A" |}; {| page_content := "doc B" |} ]
    {| content := "Recommended: Context: doc A" +:+ newline
                    +:+ "doc B Question: action anime" |} _ _).
  - reflexivity.
  - vm_compute. reflexivity.
Defined.

(** When the retriever fails, its exception propagates and the model is not
    invoked; when the model fails, its exception propagates. *)
Lemma get_recommendations_retriever_fails `{Services} self query w e :
  retrieve (retriever self) query (tick w) = Raise e →
  ∃ w', get_recommendations self query w = (Raise e, w') ∧
        calls w' = calls w ++ [RetrieverInvoke query].
Proof.
  intros He. eexists.
  unfold get_recommendations, retriever_invoke, external, mbind, M_bind.
  simpl. rewrite He. done.
Qed.

Lemma get_recommendations_llm_fails `{Services} self query w docs e :
  retrieve (retriever self) query (tick w) = Return docs →
  groq (llm self)
    (format (prompt self) (join newline (page_content <$> docs)) query)
    (S (tick w)) = Raise e →
  ∃ w', get_recommendations self query w = (Raise e, w').
Proof.
  intros Hd He. eexists.
  unfold get_recommendations, retriever_invoke, llm_invoke, external, mbind, M_bind.
  simpl. rewrite Hd. simpl. rewrite He. done.
Qed.

Lemma length_append (a b : string) :
  String.length (a +:+ b) = String.length a + String.length b.
Proof.
  induction a as [|x a IH]; [done|].
  change (S (String.length (a +:+ b)) = S (String.length a + String.length b)).
  by rewrite IH.
Qed.

Lemma length_join sep (parts : list string) :
  String.length (join sep parts)
  = total_length parts + String.length sep * (length parts - 1).
Proof.
  induction parts as [|p [|q rest] IH].
  - simpl. lia.
  - simpl. lia.
  - rewrite join_cons, !length_append, IH.
    cbn [total_length length]. lia.
Qed.

(** C5.  Whatever documents the retriever returns, the context that
    [get_recommendations] hands to the template is their text joined by
    single newlines: the first text alone for one document, each further
    text after one newline, nothing added at either end; the model is called
    on the template formatted with exactly that context.  For the documents
    [doc A] and [doc B] the context is [doc A], a newline, [doc B]. *)
Theorem context_is_newline_join `{Services} self query w docs :
  retrieve (retriever self) query (tick w) = Return docs →
  let texts := page_content <$> docs in
  let context := String.concat newline texts in
  (∃ r w',
     get_recommendations self query w = (r, w') ∧
     last (calls w') = Some (LLMInvoke (llm self) (format (prompt self) context query))) ∧
  String.length context = total_length texts + (length texts - 1) ∧
  (texts = ["doc A"; "doc B"] → context = "doc A" +:+ String "010" "doc B").
Proof.
  intros Hd texts context. split; [|split].
  - exists (get_recommendations self query w).1, (get_recommendations self query w).2.
    split; [by destruct (get_recommendations self query w)|].
    unfold get_recommendations, retriever_invoke, llm_invoke, external, mbind, M_bind.
    simpl. rewrite Hd. simpl. rewrite join_concat. fold texts context.
    destruct (groq _ _ _); simpl; apply last_snoc.
  - unfold context. rewrite <- join_concat, length_join.
    change (String.length newline) with 1. lia.
  - unfold context. by intros ->.
Qed.

Lemma context_is_newline_join_witness :
  let self := @AnimeRecommender_init sample_services sample_retriever "key"
                "llama-3.1-8b-instant" in
  let texts := ["doc A"; "doc B"] in
  let context := String.concat newline texts in
  (∃ r w',
     @get_recommendations sample_services self "action anime" idle_world = (r, w') ∧
     last (calls w')
     = Some (LLMInvoke (llm self) (format (prompt self) context "action anime"))) ∧
  String.length context = total_length texts + (length texts - 1) ∧
  (texts = ["doc A"; "doc B"] → context = "doc A" +:+ String "010" "doc B").
Proof.
  refine (@context_is_newline_join sample_services
    (@AnimeRecommender_init sample_services sample_retriever "key"
       "llama-3.1-8b-instant")
    "action anime" idle_world
    [ {| page_content := "doc A" |}; {| page_content := "doc B" |} ] _).
  reflexivity.
Defined.




(** * The pipeline driver *)

Lemma try_except_caught {A} (body : M A) handler w e w' :
  body w = (Raise e, w') →
  is_Exception e = true →
  try_except body handler w = handler e w'.
Proof. intros Hb He. unfold try_except. by rewrite Hb, He. Qed.

Lemma try_except_escapes {A} (body : M A) handler w e w' :
  body w = (Raise e, w') →
  is_Exception e = false →
  try_except body handler w = (Raise e, w').
Proof. intros Hb He. unfold try_except. by rewrite Hb, He. Qed.

Lemma info_logger msg w : info logger msg w = (Return (), logged msg w).
Proof. reflexivity. Qed.

Section driver.
Context `{Parser} `{VectorStore}.

(** Where the [try] block can raise: in the loader, in the builder's
    constructor, or in [build_and_save_vectorstore]. *)
Lemma pipeline_steps_loader_raises root w e w' :
  load_and_process (pipeline_loader root)
    (logged (Plain "Starting to build pipeline") w) = (Raise e, w') →
  pipeline_steps root w = (Raise e, w').
Proof.
  intros Hl. unfold pipeline_steps, mbind, M_bind. rewrite info_logger.
  fold (pipeline_loader root). by rewrite Hl.
Qed.

Lemma pipeline_steps_init_raises root w p w2 e w' :
  load_and_process (pipeline_loader root)
    (logged (Plain "Starting to build pipeline") w) = (Return p, w2) →
  VectorStoreBuilder_init p
    (logged (Plain "Data loaded and processed successfully") w2) = (Raise e, w') →
  pipeline_steps root w = (Raise e, w').
Proof.
  intros Hl Hi. unfold pipeline_steps, mbind, M_bind. rewrite info_logger.
  fold (pipeline_loader root). rewrite Hl, info_logger. by rewrite Hi.
Qed.

Lemma pipeline_steps_build_raises root w p w2 vb w3 e w' :
  load_and_process (pipeline_loader root)
    (logged (Plain "Starting to build pipeline") w) = (Return p, w2) →
  VectorStoreBuilder_init p
    (logged (Plain "Data loaded and processed successfully") w2) = (Return vb, w3) →
  build_and_save_vectorstore vb w3 = (Raise e, w') →
  pipeline_steps root w = (Raise e, w').
Proof.
  intros Hl Hi Hb. unfold pipeline_steps, mbind, M_bind. rewrite info_logger.
  fold (pipeline_loader root). rewrite Hl, info_logger. rewrite Hi. by rewrite Hb.
Qed.

Lemma main_handles root w e w' :
  pipeline_steps root w = (Raise e, w') →
  is_Exception e = true →
  main root w
  = (Raise (CustomException "Error during pipeline initialization" e),
     logged (FailedToExecute e) w').
Proof.
  intros Hs He. unfold main. by rewrite (try_except_caught _ _ _ _ _ Hs He).
Qed.
End driver.

(** C6, as the code has it.  Every exception derived from [Exception] that
    data loading or vector-store building raises during the run is caught by
    the driver, which logs the failure, wraps the exception in
    [CustomException] with the original as cause and raises that; the run
    ends there, with nothing retried: the world is the one the failing step
    left, plus the one log record. *)
Theorem main_wraps_exceptions `{Parser} `{VectorStore} root w e w' :
  is_Exception e = true →
  let w1 := logged (Plain "Starting to build pipeline") w in
  let loaded := logged (Plain "Data loaded and processed successfully") in
  let failure :=
    (Raise (CustomException "Error during pipeline initialization" e),
     logged (FailedToExecute e) w') in
  (load_and_process (pipeline_loader root) w1 = (Raise e, w') →
   main root w = failure) ∧
  (∀ p w2,
     load_and_process (pipeline_loader root) w1 = (Return p, w2) →
     VectorStoreBuilder_init p (loaded w2) = (Raise e, w') →
     main root w = failure) ∧
  (∀ p w2 vb w3,
     load_and_process (pipeline_loader root) w1 = (Return p, w2) →
     VectorStoreBuilder_init p (loaded w2) = (Return vb, w3) →
     build_and_save_vectorstore vb w3 = (Raise e, w') →
     main root w = failure).
Proof.
  intros He w1 loaded failure. split; [|split].
  - intros Hl. apply main_handles; [|done]. by apply pipeline_steps_loader_raises.
  - intros p w2 Hl Hi. apply main_handles; [|done].
    by eapply pipeline_steps_init_raises.
  - intros p w2 vb w3 Hl Hi Hb. apply main_handles; [|done].
    by eapply pipeline_steps_build_raises.
Qed.

Lemma main_wraps_exceptions_witness :
  @main sample_parser failing_store "proj" pipeline_world
  = (Raise (CustomException "Error during pipeline initialization"
              (ServiceError "embedding failed")),
     logged (FailedToExecute (ServiceError "embedding failed"))
       (@pipeline_steps sample_parser failing_store "proj" pipeline_world).2).
Proof.
  refine (proj2 (proj2 (@main_wraps_exceptions sample_parser failing_store "proj"
    pipeline_world (ServiceError "embedding failed")
    (@pipeline_steps sample_parser failing_store "proj" pipeline_world).2 _))
    "proj/data/anime_updated.csv"
    (@load_and_process sample_parser (pipeline_loader "proj")
       (logged (Plain "Starting to build pipeline") pipeline_world)).2
    "proj/data/anime_updated.csv"
    (logged (Plain "Data loaded and processed successfully")
       (@load_and_process sample_parser (pipeline_loader "proj")
          (logged (Plain "Starting to build pipeline") pipeline_world)).2)
    _ _ _).
  - reflexivity.
  - vm_compute. reflexivity.
  - reflexivity.
  - vm_compute. reflexivity.
Defined.

(** C6, as stated, fails for an exception outside the [Exception] hierarchy:
    a [KeyboardInterrupt] raised while the vector store is built leaves the
    driver as it is, not wrapped, and no failure is logged. *)
Lemma keyboard_interrupt_escapes_unwrapped :
  ∃ vb w3 w',
    @build_and_save_vectorstore interrupted_store vb w3 = (Raise KeyboardInterrupt, w') ∧
    @main sample_parser interrupted_store "proj" pipeline_world
      = (Raise KeyboardInterrupt, w') ∧
    @main sample_parser interrupted_store "proj" pipeline_world
      ≠ (Raise (CustomException "Error during pipeline initialization"
                  KeyboardInterrupt),
         logged (FailedToExecute KeyboardInterrupt) w') ∧
    logfile w'
      = [ {| levelno := INFO; log_msg := Plain "Starting to build pipeline" |};
          {| levelno := INFO;
             log_msg := Plain "Data loaded and processed successfully" |} ].
Proof.
  exists "proj/data/anime_updated.csv",
    (logged (Plain "Data loaded and processed successfully")
       (@load_and_process sample_parser (pipeline_loader "proj")
          (logged (Plain "Starting to build pipeline") pipeline_world)).2),
    (logged (Plain "Data loaded and processed successfully")
       (@load_and_process sample_parser (pipeline_loader "proj")
          (logged (Plain "Starting to build pipeline") pipeline_world)).2).
  split; [reflexivity|].
  assert (@main sample_parser interrupted_store "proj" pipeline_world
          = (Raise KeyboardInterrupt,
             logged (Plain "Data loaded and processed successfully")
               (@load_and_process sample_parser (pipeline_loader "proj")
                  (logged (Plain "Starting to build pipeline") pipeline_world)).2))
    as Hmain by (vm_compute; reflexivity).
  split; [exact Hmain|]. split.
  - rewrite Hmain. intros [= ].
  - vm_compute. reflexivity.
Qed.


(** * Further properties of the data loader *)

(** X2.  A run of [load_and_process] that returns has found the source
    file, in UTF-8, with a header naming [Name], [Genres] and [sypnopsis],
    and either no row of it survives or all three columns hold strings; the
    directory of the destination exists, the destination path is what is
    returned, and the destination file is the only change to the world. *)
Theorem returning_run_conditions `{Parser} self w p w' :
  load_and_process self w = (Return p, w') →
  ∃ f header body,
    fs w !! original_csv self = Some f ∧
    encoding f = "utf-8" ∧
    records f = header :: body ∧
    ("Name" ∈ header ∧ "Genres" ∈ header ∧ "sypnopsis" ∈ header) ∧
    (filter (survives header body) body = [] ∨ text_columns header body) ∧
    is_dir w (dirname (processed_csv self)) = true ∧
    p = processed_csv self ∧
    w' = {| fs := <[processed_csv self := processed_file header body]> (fs w);
            dirs := dirs w; logfile := logfile w; calls := calls w;
            tick := tick w |}.
Proof.
  intros Hrun.
  apply load_and_process_Return in Hrun
    as (f & header & body & Hf & He & Hr & Hm & [[Tn Hc] Hd] & -> & ->).
  exists f, header, body. rewrite <- required_present.
  do 4 (split; [done|]). split; [|done].
  destruct Hc as [Hc|[Ts Tg]]; [by left|by right].
Qed.

Lemma returning_run_conditions_witness :
  ∃ f header body,
    fs world0 !! original_csv loader0 = Some f ∧
    encoding f = "utf-8" ∧
    records f = header :: body ∧
    ("Name" ∈ header ∧ "Genres" ∈ header ∧ "sypnopsis" ∈ header) ∧
    (filter (@survives sample_parser header body) body = []
     ∨ @text_columns sample_parser header body) ∧
    is_dir world0 (dirname (processed_csv loader0)) = true ∧
    "out.csv" = processed_csv loader0 ∧
    (@load_and_process sample_parser loader0 world0).2
    = {| fs := <[processed_csv loader0 := @processed_file sample_parser header body]>
                 (fs world0);
         dirs := dirs world0; logfile := logfile world0; calls := calls world0;
         tick := tick world0 |}.
Proof.
  refine (@returning_run_conditions sample_parser loader0 world0 "out.csv"
    (@load_and_process sample_parser loader0 world0).2 _).
  vm_compute. reflexivity.
Defined.

(** X3.  When the three columns are present, some input row survives, and
    one of the three columns does not hold strings (a [Name] column of
    numbers, say), the concatenation fails: [load_and_process] raises
    [TypeError] and writes nothing. *)
Theorem non_string_column_raises_TypeError `{Parser} self w f header body r :
  fs w !! original_csv self = Some f →
  encoding f = "utf-8" →
  records f = header :: body →
  "Name" ∈ header → "Genres" ∈ header → "sypnopsis" ∈ header →
  r ∈ body → survives header body r →
  (column_dtype (frame_of header body) "Name" = dt_other
   ∨ column_dtype (frame_of header body) "sypnopsis" = dt_other
   ∨ column_dtype (frame_of header body) "Genres" = dt_other) →
  load_and_process self w = (Raise TypeError, w).
Proof.
  intros Hf He Hr Hn Hg Hs Hin Hsurv Hd.
  rewrite (load_and_process_run _ _ _ _ _ Hf He Hr).
  rewrite decide_True by (by apply required_present).
  rewrite decide_False; [done|].
  intros (Tn & [Hnone|[Ts Tg]]).
  - assert (r ∈ filter (survives header body) body) as Hr'
      by (by apply list_elem_of_filter).
    rewrite Hnone in Hr'. by apply not_elem_of_nil in Hr'.
  - destruct Hd as [Hd|[Hd|Hd]]; congruence.
Qed.

Lemma non_string_column_raises_TypeError_witness :
  @load_and_process sample_parser loader0 numeric_names_world
  = (Raise TypeError, numeric_names_world).
Proof.
  refine (@non_string_column_raises_TypeError sample_parser loader0
    numeric_names_world numeric_names_csv ["Name"; "Genres"; "sypnopsis"]
    [ ["86"; "Action"; "A war fought by drones."];
      ["91"; "Drama"; "Days of a manga artist."] ]
    ["86"; "Action"; "A war fought by drones."] _ _ _ _ _ _ _ _ _).
  - vm_compute. reflexivity.
  - reflexivity.
  - reflexivity.
  - apply (bool_decide_unpack _). vm_compute. exact I.
  - apply (bool_decide_unpack _). vm_compute. exact I.
  - apply (bool_decide_unpack _). vm_compute. exact I.
  - apply list_elem_of_here.
  - split; vm_compute; reflexivity.
  - left. vm_compute. reflexivity.
Defined.

(** X4.  With source and destination at different paths the loader is
    idempotent: after a run that returned, a second run returns the same
    path and leaves the world exactly as the first run left it. *)
Theorem load_and_process_idempotent `{Parser} self w p w' :
  original_csv self ≠ processed_csv self →
  load_and_process self w = (Return p, w') →
  load_and_process self w' = (Return p, w').
Proof.
  intros Hne Hrun.
  apply load_and_process_Return in Hrun
    as (f & header & body & Hf & He & Hr & Hm & Ht & -> & ->).
  rewrite (load_and_process_run _ _ f header body); [|by simpl; rewrite lookup_insert_ne|done|done].
  rewrite decide_True by done. rewrite decide_True by apply Ht.
  change (is_dir (written (processed_csv self) (processed_file header body) w)
            (dirname (processed_csv self)))
    with (is_dir w (dirname (processed_csv self))).
  rewrite (proj2 Ht). unfold written. simpl. by rewrite insert_insert_eq.
Qed.

Lemma load_and_process_idempotent_witness :
  @load_and_process sample_parser loader0
    (@load_and_process sample_parser loader0 world0).2
  = (Return "out.csv", (@load_and_process sample_parser loader0 world0).2).
Proof.
  refine (@load_and_process_idempotent sample_parser loader0 world0 "out.csv"
    (@load_and_process sample_parser loader0 world0).2 _ _).
  - intros [=].
  - vm_compute. reflexivity.
Defined.

(** X5.  A run that returns writes the header record alone exactly when no
    input row survives, in particular for a source that has a header and no
    rows. *)
Theorem no_survivor_writes_header_only `{Parser} self w f header body p w' :
  fs w !! original_csv self = Some f →
  records f = header :: body →
  load_and_process self w = (Return p, w') →
  ∃ out,
    fs w' !! p = Some out ∧
    (records out = [["combined_info"]] ↔
     ∀ r, r ∈ body → ¬ survives header body r) ∧
    (body = [] → records out = [["combined_info"]]).
Proof.
  intros Hf Hr Hrun.
  apply load_and_process_Return in Hrun
    as (f' & header' & body' & Hf' & _ & Hr' & _ & _ & -> & ->).
  rewrite Hf in Hf'. injection Hf' as <-.
  rewrite Hr in Hr'. injection Hr' as <- <-.
  exists (processed_file header body). simpl.
  split; [apply lookup_insert_eq|]. split.
  - split.
    + intros [= Hnil]. apply fmap_nil_inv in Hnil.
      intros r Hin Hs.
      assert (r ∈ filter (survives header body) body) as Hr'
        by (by apply list_elem_of_filter).
      rewrite Hnil in Hr'. by apply not_elem_of_nil in Hr'.
    + intros Hnone. f_equal.
      destruct (filter (survives header body) body) as [|r rest] eqn:Hfl; [done|].
      assert (r ∈ filter (survives header body) body) as Hin
        by (rewrite Hfl; apply list_elem_of_here).
      apply list_elem_of_filter in Hin as [Hs Hin]. by destruct (Hnone r Hin).
  - by intros ->.
Qed.

Lemma no_survivor_writes_header_only_witness :
  ∃ out,
    fs (@load_and_process header_only_parser loader0 header_only_world).2 !! "out.csv"
      = Some out ∧
    (records out = [["combined_info"]] ↔
     ∀ r, r ∈ [] → ¬ @survives header_only_parser ["Name"; "Genres"; "sypnopsis"] [] r) ∧
    (@nil (list string) = [] → records out = [["combined_info"]]).
Proof.
  refine (@no_survivor_writes_header_only header_only_parser loader0
    header_only_world header_only_csv ["Name"; "Genres"; "sypnopsis"] [] "out.csv"
    (@load_and_process header_only_parser loader0 header_only_world).2 _ _ _).
  - vm_compute. reflexivity.
  - reflexivity.
  - vm_compute. reflexivity.
Defined.

(** X6.  The file [load_and_process] writes depends on the source file
    alone: two runs that return, in two worlds that hold the same source,
    return the same path and leave the same content at the destination,
    whatever was there before. *)
Theorem written_file_depends_on_source `{Parser} self w1 w2 p1 p2 w1' w2' :
  fs w1 !! original_csv self = fs w2 !! original_csv self →
  load_and_process self w1 = (Return p1, w1') →
  load_and_process self w2 = (Return p2, w2') →
  p1 = p2 ∧
  fs w1' !! processed_csv self = fs w2' !! processed_csv self ∧
  is_Some (fs w1' !! processed_csv self).
Proof.
  intros Hsame H1 H2.
  apply load_and_process_Return in H1
    as (f1 & h1 & b1 & Hf1 & _ & Hr1 & _ & _ & -> & ->).
  apply load_and_process_Return in H2
    as (f2 & h2 & b2 & Hf2 & _ & Hr2 & _ & _ & -> & ->).
  rewrite Hsame, Hf2 in Hf1. injection Hf1 as <-.
  rewrite Hr2 in Hr1. injection Hr1 as <- <-.
  split; [done|]. simpl. rewrite !lookup_insert_eq. by eauto.
Qed.

Lemma written_file_depends_on_source_witness :
  "out.csv" = "out.csv" ∧
  fs (@load_and_process sample_parser loader0 world0).2 !! processed_csv loader0
  = fs (@load_and_process sample_parser loader0 busy_world).2 !! processed_csv loader0 ∧
  is_Some (fs (@load_and_process sample_parser loader0 world0).2
             !! processed_csv loader0).
Proof.
  refine (@written_file_depends_on_source sample_parser loader0 world0 busy_world
    "out.csv" "out.csv"
    (@load_and_process sample_parser loader0 world0).2
    (@load_and_process sample_parser loader0 busy_world).2 _ _ _).
  - vm_compute. reflexivity.
  - vm_compute. reflexivity.
  - vm_compute. reflexivity.
Defined.

(** X7.  Every record a returning run writes after the header is a single
    field that begins with [Title: ]; it is therefore never empty and never
    one of pandas' default missing-value markers, so no written row reads
    back as a null. *)
Theorem written_fields_start_with_Title `{Parser} self w p w' :
  load_and_process self w = (Return p, w') →
  ∃ out,
    fs w' !! p = Some out ∧
    ∀ record, record ∈ tail (records out) →
      ∃ rest, record = ["Title: " +:+ rest]
              ∧ "Title: " +:+ rest ≠ EmptyString
              ∧ "Title: " +:+ rest ∉ default_na_values.
Proof.
  intros Hrun.
  apply load_and_process_Return in Hrun
    as (f & header & body & _ & _ & _ & _ & _ & -> & ->).
  exists (processed_file header body). simpl.
  split; [apply lookup_insert_eq|].
  intros record (r & -> & _)%list_elem_of_fmap. unfold derived.
  eexists. split; [reflexivity|]. split; [done|].
  unfold default_na_values. intros Hin.
  repeat (apply elem_of_cons in Hin as [Hin|Hin]; [discriminate Hin|]).
  by apply elem_of_nil in Hin.
Qed.

Lemma written_fields_start_with_Title_witness :
  ∃ out,
    fs (@load_and_process sample_parser loader0 world0).2 !! "out.csv" = Some out ∧
    ∀ record, record ∈ tail (records out) →
      ∃ rest, record = ["Title: " +:+ rest]
              ∧ "Title: " +:+ rest ≠ EmptyString
              ∧ "Title: " +:+ rest ∉ default_na_values.
Proof.
  refine (@written_fields_start_with_Title sample_parser loader0 world0 "out.csv"
    (@load_and_process sample_parser loader0 world0).2 _).
  vm_compute. reflexivity.
Defined.

(** * Further properties of the recommender *)

(** X8.  When the retriever raises, [get_recommendations] raises the same
    exception; the retriever call is the only call made and the model is not
    invoked. *)
Theorem retriever_failure_skips_model `{Services} self query w e :
  retrieve (retriever self) query (tick w) = Raise e →
  ∃ w',
    get_recommendations self query w = (Raise e, w') ∧
    calls w' = calls w ++ [RetrieverInvoke query] ∧
    length (filter is_llm_call (calls w')) = length (filter is_llm_call (calls w)).
Proof.
  intros He. eexists.
  unfold get_recommendations, retriever_invoke, external, mbind, M_bind.
  simpl. rewrite He. split; [reflexivity|]. split; [done|].
  cbn [calls]. rewrite filter_app, length_app. simpl. lia.
Qed.

Lemma retriever_failure_skips_model_witness :
  ∃ w',
    @get_recommendations sample_services
      (@AnimeRecommender_init sample_services offline_retriever "key"
         "llama-3.1-8b-instant") "action anime" later_world
    = (Raise (ServiceError "vector store unavailable"), w') ∧
    calls w' = calls later_world ++ [RetrieverInvoke "action anime"] ∧
    length (filter is_llm_call (calls w'))
    = length (filter is_llm_call (calls later_world)).
Proof.
  refine (@retriever_failure_skips_model sample_services
    (@AnimeRecommender_init sample_services offline_retriever "key"
       "llama-3.1-8b-instant") "action anime" later_world
    (ServiceError "vector store unavailable") _).
  reflexivity.
Defined.

(** X9.  When the model raises, [get_recommendations] raises the same
    exception after exactly one model call: nothing is caught and nothing is
    retried. *)
Theorem model_failure_propagates `{Services} self query w docs e :
  retrieve (retriever self) query (tick w) = Return docs →
  groq (llm self)
    (format (prompt self) (join newline (page_content <$> docs)) query)
    (S (tick w)) = Raise e →
  ∃ w',
    get_recommendations self query w = (Raise e, w') ∧
    calls w'
    = calls w
      ++ [ RetrieverInvoke query;
           LLMInvoke (llm self)
             (format (prompt self) (join newline (page_content <$> docs)) query) ] ∧
    length (filter is_llm_call (calls w'))
    = S (length (filter is_llm_call (calls w))).
Proof.
  intros Hd He. eexists.
  unfold get_recommendations, retriever_invoke, llm_invoke, external, mbind, M_bind.
  simpl. rewrite Hd. simpl. rewrite He. split; [reflexivity|]. split.
  - simpl. by rewrite <- app_assoc.
  - cbn [calls]. rewrite !filter_app, !length_app. simpl. lia.
Qed.

Lemma model_failure_propagates_witness :
  ∃ w',
    @get_recommendations rejecting_services
      (@AnimeRecommender_init rejecting_services sample_retriever "key"
         "llama-3.1-8b-instant") "action anime" idle_world
    = (Raise (ServiceError "rate limit exceeded"), w') ∧
    calls w'
    = calls idle_world
      ++ [ RetrieverInvoke "action anime";
           LLMInvoke {| model := "llama-3.1-8b-instant"; api_key := "key";
                        temperature := 1 # 100000000 |}
             (format sample_prompt
                (join newline (page_content <$>
                   [ {| page_content := "doc A" |}; {| page_content := "doc B" |} ]))
                "action anime") ] ∧
    length (filter is_llm_call (calls w'))
    = S (length (filter is_llm_call (calls idle_world))).
Proof.
  refine (@model_failure_propagates rejecting_services
    (@AnimeRecommender_init rejecting_services sample_retriever "key"
       "llama-3.1-8b-instant") "action anime" idle_world
    [ {| page_content := "doc A" |}; {| page_content := "doc B" |} ]
    (ServiceError "rate limit exceeded") _ _).
  - reflexivity.
  - reflexivity.
Defined.

(** X10.  When the retriever finds no document the recommender does not
    stop: the context is the empty string and the model is still invoked,
    on the template formatted with the empty context and the query. *)
Theorem empty_retrieval_still_asks_model `{Services} self query w :
  retrieve (retriever self) query (tick w) = Return [] →
  ∃ w',
    get_recommendations self query w
    = (match groq (llm self) (format (prompt self) EmptyString query) (S (tick w)) with
       | Return result => Return (content result)
       | Raise e => Raise e
       end, w') ∧
    calls w'
    = calls w
      ++ [ RetrieverInvoke query;
           LLMInvoke (llm self) (format (prompt self) EmptyString query) ].
Proof.
  intros Hd. eexists.
  unfold get_recommendations, retriever_invoke, llm_invoke, external, mbind, M_bind.
  simpl. rewrite Hd. simpl.
  destruct (groq _ _ _); (split; [reflexivity|]); simpl; by rewrite <- app_assoc.
Qed.

Lemma empty_retrieval_still_asks_model_witness :
  ∃ w',
    @get_recommendations sample_services
      (@AnimeRecommender_init sample_services empty_retriever "key"
         "llama-3.1-8b-instant") "action anime" idle_world
    = (Return "Recommended: Context:  Question: action anime", w') ∧
    calls w'
    = [ RetrieverInvoke "action anime";
        LLMInvoke {| model := "llama-3.1-8b-instant"; api_key := "key";
                     temperature := 1 # 100000000 |}
          "Context:  Question: action anime" ].
Proof.
  refine (@empty_retrieval_still_asks_model sample_services
    (@AnimeRecommender_init sample_services empty_retriever "key"
       "llama-3.1-8b-instant") "action anime" idle_world _).
  reflexivity.
Defined.


(** X12.  Joining two non-empty lists of texts put end to end gives the join
    of the first, one separator, and the join of the second: the context of
    a longer retrieval extends the context of a shorter one by a newline and
    the further documents. *)
Theorem join_app sep (l1 l2 : list string) :
  l1 ≠ [] → l2 ≠ [] →
  join sep (l1 ++ l2) = join sep l1 +:+ sep +:+ join sep l2.
Proof.
  intros H1 H2. induction l1 as [|p [|q rest] IH]; [done| |].
  - destruct l2 as [|r l2]; [done|]. reflexivity.
  - change (p +:+ sep +:+ join sep ((q :: rest) ++ l2)
            = (p +:+ sep +:+ join sep (q :: rest)) +:+ sep +:+ join sep l2).
    rewrite IH by done. by rewrite !append_assoc.
Qed.

Lemma join_app_witness :
  join newline (["doc A"] ++ ["doc B"; "doc C"])
  = join newline ["doc A"] +:+ newline +:+ join newline ["doc B"; "doc C"].
Proof.
  refine (join_app newline ["doc A"] ["doc B"; "doc C"] _ _); intros [=].
Defined.

(** * Further properties of the pipeline driver *)

Section driver_more.
Context `{Parser} `{VectorStore}.

Lemma pipeline_steps_loaded root w p w2 :
  load_and_process (pipeline_loader root)
    (logged (Plain "Starting to build pipeline") w) = (Return p, w2) →
  pipeline_steps root w
  = build_steps p (logged (Plain "Data loaded and processed successfully") w2).
Proof.
  intros Hl. unfold pipeline_steps, build_steps, mbind, M_bind.
  rewrite info_logger. fold (pipeline_loader root). by rewrite Hl, info_logger.
Qed.

Lemma pipeline_failed_raises e w :
  pipeline_failed e w
  = (Raise (CustomException "Error during pipeline initialization" e),
     logged (FailedToExecute e) w).
Proof. reflexivity. Qed.
End driver_more.

(** X13.  [main] returns exactly when the loader, the builder's constructor
    and [build_and_save_vectorstore] all return; the constructor is given
    the path the loader returned, and the run ends with the records
    [Vector store built successfully...] and [Pipeline built successfully]
    appended to the log the builder left. *)
Theorem main_returns_iff `{Parser} `{VectorStore} root w w' :
  main root w = (Return (), w') ↔
  ∃ p w2 vb w3 w4,
    load_and_process (pipeline_loader root)
      (logged (Plain "Starting to build pipeline") w) = (Return p, w2) ∧
    VectorStoreBuilder_init p
      (logged (Plain "Data loaded and processed successfully") w2) = (Return vb, w3) ∧
    build_and_save_vectorstore vb w3 = (Return (), w4) ∧
    w' = logged (Plain "Pipeline built successfully")
           (logged (Plain "Vector store built successfully...") w4).
Proof.
  unfold main, try_except. split.
  - destruct (load_and_process (pipeline_loader root)
                (logged (Plain "Starting to build pipeline") w)) as [[p|e] w2] eqn:Hl.
    2:{ rewrite (pipeline_steps_loader_raises _ _ _ _ Hl).
        rewrite pipeline_failed_raises. by destruct (is_Exception e). }
    rewrite (pipeline_steps_loaded _ _ _ _ Hl). unfold build_steps, mbind, M_bind.
    destruct (VectorStoreBuilder_init p _) as [[vb|e] w3] eqn:Hi.
    2:{ rewrite pipeline_failed_raises. by destruct (is_Exception e). }
    destruct (build_and_save_vectorstore vb w3) as [[[]|e] w4] eqn:Hb.
    2:{ rewrite pipeline_failed_raises. by destruct (is_Exception e). }
    rewrite !info_logger. intros [= <-]. by exists p, w2, vb, w3, w4.
  - intros (p & w2 & vb & w3 & w4 & Hl & Hi & Hb & ->).
    rewrite (pipeline_steps_loaded _ _ _ _ Hl). unfold build_steps, mbind, M_bind.
    by rewrite Hi, Hb, !info_logger.
Qed.

(** X14.  An exception outside the [Exception] hierarchy ([KeyboardInterrupt],
    [SystemExit]) raised by the builder's constructor or while the vector
    store is built leaves [main] as it was raised: it is not wrapped, and no
    failure record is logged. *)
Theorem non_Exception_leaves_main_unwrapped `{Parser} `{VectorStore} root w e w' :
  is_Exception e = false →
  let w1 := logged (Plain "Starting to build pipeline") w in
  let loaded := logged (Plain "Data loaded and processed successfully") in
  (∀ p w2,
     load_and_process (pipeline_loader root) w1 = (Return p, w2) →
     VectorStoreBuilder_init p (loaded w2) = (Raise e, w') →
     main root w = (Raise e, w')) ∧
  (∀ p w2 vb w3,
     load_and_process (pipeline_loader root) w1 = (Return p, w2) →
     VectorStoreBuilder_init p (loaded w2) = (Return vb, w3) →
     build_and_save_vectorstore vb w3 = (Raise e, w') →
     main root w = (Raise e, w')).
Proof.
  intros He w1 loaded. split.
  - intros p w2 Hl Hi. apply try_except_escapes; [|done].
    by eapply pipeline_steps_init_raises.
  - intros p w2 vb w3 Hl Hi Hb. apply try_except_escapes; [|done].
    by eapply pipeline_steps_build_raises.
Qed.

Lemma non_Exception_leaves_main_unwrapped_witness :
  @main sample_parser interrupted_store "proj" pipeline_world
  = (Raise KeyboardInterrupt,
     logged (Plain "Data loaded and processed successfully")
       (@load_and_process sample_parser (pipeline_loader "proj")
          (logged (Plain "Starting to build pipeline") pipeline_world)).2).
Proof.
  refine (proj2 (@non_Exception_leaves_main_unwrapped sample_parser
    interrupted_store "proj" pipeline_world KeyboardInterrupt
    (logged (Plain "Data loaded and processed successfully")
       (@load_and_process sample_parser (pipeline_loader "proj")
          (logged (Plain "Starting to build pipeline") pipeline_world)).2) _)
    "proj/data/anime_updated.csv"
    (@load_and_process sample_parser (pipeline_loader "proj")
       (logged (Plain "Starting to build pipeline") pipeline_world)).2
    "proj/data/anime_updated.csv"
    (logged (Plain "Data loaded and processed successfully")
       (@load_and_process sample_parser (pipeline_loader "proj")
          (logged (Plain "Starting to build pipeline") pipeline_world)).2)
    _ _ _).
  - reflexivity.
  - vm_compute. reflexivity.
  - reflexivity.
  - reflexivity.
Defined.

(** X15.  Whatever [main] raises is either an exception outside the
    [Exception] hierarchy, passed on as the [try] block raised it, or a
    [CustomException] with the text [Error during pipeline initialization]
    whose cause derives from [Exception] and is what the [try] block raised;
    in that case one failure record was logged. *)
Theorem main_raises_wrapped_or_non_Exception `{Parser} `{VectorStore} root w e w' :
  main root w = (Raise e, w') →
  (is_Exception e = false ∧ pipeline_steps root w = (Raise e, w'))
  ∨ (∃ cause w'',
       e = CustomException "Error during pipeline initialization" cause ∧
       is_Exception cause = true ∧
       pipeline_steps root w = (Raise cause, w'') ∧
       w' = logged (FailedToExecute cause) w'').
Proof.
  unfold main, try_except.
  destruct (pipeline_steps root w) as [[[]|c] w''] eqn:Hs; [done|].
  destruct (is_Exception c) eqn:Hc.
  - rewrite pipeline_failed_raises. intros [= <- <-]. right. by exists c, w''.
  - intros [= <- <-]. by left.
Qed.

Lemma main_raises_wrapped_or_non_Exception_witness :
  (is_Exception (CustomException "Error during pipeline initialization"
                   (ServiceError "embedding failed")) = false
   ∧ @pipeline_steps sample_parser failing_store "proj" pipeline_world
     = (Raise (CustomException "Error during pipeline initialization"
                 (ServiceError "embedding failed")),
        (@main sample_parser failing_store "proj" pipeline_world).2))
  ∨ (∃ cause w'',
       CustomException "Error during pipeline initialization"
         (ServiceError "embedding failed")
       = CustomException "Error during pipeline initialization" cause ∧
       is_Exception cause = true ∧
       @pipeline_steps sample_parser failing_store "proj" pipeline_world
       = (Raise cause, w'') ∧
       (@main sample_parser failing_store "proj" pipeline_world).2
       = logged (FailedToExecute cause) w'').
Proof.
  refine (@main_raises_wrapped_or_non_Exception sample_parser failing_store "proj"
    pipeline_world
    (CustomException "Error during pipeline initialization"
       (ServiceError "embedding failed"))
    (@main sample_parser failing_store "proj" pipeline_world).2 _).
  vm_compute. reflexivity.
Defined.

(** X17.  Run without the dataset, the driver fails before anything is
    built: when there is no file at [<root>/data/anime_with_synopsis.csv],
    [main] raises the [CustomException] whose cause is the
    [FileNotFoundError] for that path, and it writes no file. *)
Theorem main_without_dataset `{Parser} `{VectorStore} root w :
  fs w !! path_join (path_join root "data") "anime_with_synopsis.csv" = None →
  ∃ w',
    main root w
    = (Raise (CustomException "Error during pipeline initialization"
                (FileNotFoundError
                   (path_join (path_join root "data") "anime_with_synopsis.csv"))),
       w') ∧
    fs w' = fs w.
Proof.
  intros Hf.
  exists (logged (FailedToExecute (FileNotFoundError
            (path_join (path_join root "data") "anime_with_synopsis.csv")))
            (logged (Plain "Starting to build pipeline") w)).
  split; [|reflexivity].
  assert (load_and_process (pipeline_loader root)
            (logged (Plain "Starting to build pipeline") w)
          = (Raise (FileNotFoundError (original_csv (pipeline_loader root))),
             logged (Plain "Starting to build pipeline") w)) as Hl
    by (by apply load_and_process_no_file).
  by rewrite (main_handles _ _ _ _ (pipeline_steps_loader_raises _ _ _ _ Hl) eq_refl).
Qed.

Lemma main_without_dataset_witness :
  ∃ w',
    @main sample_parser working_store "proj" world0
    = (Raise (CustomException "Error during pipeline initialization"
                (FileNotFoundError
                   (path_join (path_join "proj" "data") "anime_with_synopsis.csv"))),
       w') ∧
    fs w' = fs world0.
Proof.
  refine (@main_without_dataset sample_parser working_store "proj" world0 _).
  vm_compute. reflexivity.
Defined.

(** X18.  When the loader returns inside [main], what the builder's
    constructor is given is the path [<root>/data/anime_updated.csv], and in
    the world it starts from that file exists, is UTF-8 and has the single
    header name [combined_info]; the [try] block goes on with the builder
    from there. *)
Theorem builder_receives_processed_file `{Parser} `{VectorStore} root w p w2 :
  load_and_process (pipeline_loader root)
    (logged (Plain "Starting to build pipeline") w) = (Return p, w2) →
  let handed := logged (Plain "Data loaded and processed successfully") w2 in
  p = path_join (path_join root "data") "anime_updated.csv" ∧
  (∃ out data,
     fs handed !! p = Some out ∧
     encoding out = "utf-8" ∧
     records out = ["combined_info"] :: data) ∧
  pipeline_steps root w = build_steps p handed.
Proof.
  intros Hl handed. split; [|split].
  - by apply load_and_process_Return in Hl as (_ & _ & _ & _ & _ & _ & _ & _ & -> & _).
  - pose proof Hl as Hl'.
    apply load_and_process_Return in Hl'
      as (f & header & body & _ & _ & _ & _ & _ & -> & ->).
    exists (processed_file header body),
      ((λ r, [derived header body r]) <$> filter (survives header body) body).
    split; [apply lookup_insert_eq|done].
  - by apply pipeline_steps_loaded.
Qed.

Lemma builder_receives_processed_file_witness :
  let w2 := (@load_and_process sample_parser (pipeline_loader "proj")
               (logged (Plain "Starting to build pipeline") pipeline_world)).2 in
  let handed := logged (Plain "Data loaded and processed successfully") w2 in
  "proj/data/anime_updated.csv"
  = path_join (path_join "proj" "data") "anime_updated.csv" ∧
  (∃ out data,
     fs handed !! "proj/data/anime_updated.csv" = Some out ∧
     encoding out = "utf-8" ∧
     records out = ["combined_info"] :: data) ∧
  @pipeline_steps sample_parser working_store "proj" pipeline_world
  = @build_steps working_store "proj/data/anime_updated.csv" handed.
Proof.
  refine (@builder_receives_processed_file sample_parser working_store "proj"
    pipeline_world "proj/data/anime_updated.csv"
    (@load_and_process sample_parser (pipeline_loader "proj")
       (logged (Plain "Starting to build pipeline") pipeline_world)).2 _).
  vm_compute. reflexivity.
Defined.

(** * Running the loader in place *)

(** X19.  A loader whose destination is its own source destroys the source:
    after a run that returns, the source path holds the processed file, with
    the header [combined_info] alone, and running the same loader again
    raises the missing-column [ValueError]. *)
Theorem load_and_process_in_place `{Parser} self w p w' :
  original_csv self = processed_csv self →
  load_and_process self w = (Return p, w') →
  (∃ out data,
     fs w' !! original_csv self = Some out ∧
     records out = ["combined_info"] :: data) ∧
  load_and_process self w'
  = (Raise (ValueError (MissingColumns {[ "Name"; "Genres"; "sypnopsis" ]})), w').
Proof.
  intros Hsame Hrun.
  apply load_and_process_Return in Hrun
    as (f & header & body & _ & _ & _ & _ & _ & -> & ->).
  assert (fs (written (processed_csv self) (processed_file header body) w)
            !! original_csv self = Some (processed_file header body)) as Hout
    by (rewrite Hsame; apply lookup_insert_eq).
  split.
  - by exists (processed_file header body),
      ((λ r, [derived header body r]) <$> filter (survives header body) body).
  - rewrite (load_and_process_run _ _ _ ["combined_info"]
               ((λ r, [derived header body r]) <$> filter (survives header body) body)
               Hout); [|done..].
    assert (required_columns ∖ list_to_set ["combined_info"] = required_columns) as ->
      by (by vm_compute).
    rewrite decide_False; [done|].
    intros Hempty.
    assert ("Name" ∈ required_columns) as Hin
      by (apply (bool_decide_unpack _); vm_compute; exact I).
    rewrite Hempty in Hin. by apply not_elem_of_empty in Hin.
Qed.

Lemma load_and_process_in_place_witness :
  let self := {| original_csv := "raw.csv"; processed_csv := "raw.csv" |} in
  let w' := (@load_and_process sample_parser self world0).2 in
  (∃ out data,
     fs w' !! "raw.csv" = Some out ∧ records out = ["combined_info"] :: data) ∧
  @load_and_process sample_parser self w'
  = (Raise (ValueError (MissingColumns {[ "Name"; "Genres"; "sypnopsis" ]})), w').
Proof.
  refine (@load_and_process_in_place sample_parser
    {| original_csv := "raw.csv"; processed_csv := "raw.csv" |} world0 "raw.csv"
    (@load_and_process sample_parser
       {| original_csv := "raw.csv"; processed_csv := "raw.csv" |} world0).2 _ _).
  - reflexivity.
  - vm_compute. reflexivity.
Defined.
